(** * CMSServer.mixins: ownership and permission mixins of the blog CMS

    A shallow embedding of [CMSServer/mixins.py].  Every mixin overrides one
    framework hook and calls its parent; the parent's answer, the request,
    the serializer and the model instance are the inputs of the embedded
    functions.  Hooks that raise or touch the database run in a small
    state-and-exception monad over the tables and a trace of the calls made
    on the serializer and on the instance. *)

From Stdlib Require Import ZArith List String Bool Lia.
Import ListNotations.

Local Open Scope Z_scope.
Local Open Scope list_scope.

(** ** The framework's users *)

(** [django.contrib.auth.models.User]: only the attributes the mixins read.
    Two model instances are equal in Python when their primary keys are. *)
Module User.
Record t : Type := mk
  { pk : Z;
    username : string;
    is_superuser : bool }.

Definition eqb (u v : t) : bool := pk u =? pk v.
End User.

(** [request.user] is a [User] row or the framework's [AnonymousUser], whose
    [is_authenticated] and [is_superuser] are both [False] and whose
    [username] is the empty string. *)
Inductive RequestUser : Type :=
| AnonymousUser
| Authenticated (u : User.t).

Definition is_authenticated (ru : RequestUser) : bool :=
  match ru with
  | AnonymousUser => false
  | Authenticated _ => true
  end.

Definition is_superuser (ru : RequestUser) : bool :=
  match ru with
  | AnonymousUser => false
  | Authenticated u => User.is_superuser u
  end.

Definition username (ru : RequestUser) : string :=
  match ru with
  | AnonymousUser => EmptyString
  | Authenticated u => User.username u
  end.

(** [owner == request.user] and [owner != request.user] for a model row
    [owner]: an [AnonymousUser] equals no row. *)
Definition user_eq (owner : User.t) (ru : RequestUser) : bool :=
  match ru with
  | AnonymousUser => false
  | Authenticated u => User.eqb owner u
  end.

Definition user_ne (owner : User.t) (ru : RequestUser) : bool :=
  negb (user_eq owner ru).

(** ** The models *)

(** Modelled from the spec: [CMSServer/models.py] is not among the sources.
    A Blog is owned by exactly one User and has a title and a description;
    a user owns at most one Blog, reached from the user as [user.blog]. *)
Module Blog.
Record t : Type := mk
  { pk : Z;
    title : string;
    description : string;
    user : User.t }.
End Blog.

(** Modelled from the spec: a Post belongs to exactly one Blog. *)
Module Post.
Record t : Type := mk
  { pk : Z;
    title : string;
    blog : Blog.t }.
End Post.

(** ** Exceptions and results *)

(** The two [PermissionDenied] classes are different: the blog mixin imports
    [rest_framework.exceptions.PermissionDenied] inside its methods, the post
    editor uses the module-level [django.core.exceptions.PermissionDenied].
    Messages wrapped in [gettext_lazy] are kept as their message ids. *)
Inductive Exception : Type :=
| PermissionDenied (msg : string)
| DjangoPermissionDenied (msg : string)
| AuthenticationError (msg : string)
| InvalidCredentialsError (msg : string)
| AttributeError (name : string)
| TypeError (msg : string)
| ValueError (msg : string)
| IntegrityError (msg : string)
| Http404.

Inductive Exc (A : Type) : Type :=
| Return (a : A)
| Raise (e : Exception).

Arguments Return {A} a.
Arguments Raise {A} e.

(** ** Requests and views *)

Record Request : Type := mkRequest
  { user : RequestUser }.

(** What the hooks read from [self]: the request, the routed action
    ([None] when the method maps to no action) and the outcome of
    [self.get_object()], which returns the target row or raises. *)
Record View (T : Type) : Type := mkView
  { request : Request;
    action : option string;
    get_object : Exc T }.

Arguments mkView {T} request action get_object.
Arguments request {T} v.
Arguments action {T} v.
Arguments get_object {T} v.

(** ** Querysets *)

(** A queryset is modelled by the rows it evaluates to, in order. *)
Module QuerySet.
Definition t : Type := list Post.t.

Definition none (qs : t) : t := [].

(** [qs.filter(blog__user=user)]: the join compares the blog's user key
    with the key of [user]; an [AnonymousUser] has no key and the lookup
    raises [TypeError]. *)
Definition filter_blog__user (qs : t) (ru : RequestUser) : Exc t :=
  match ru with
  | AnonymousUser =>
      Raise (TypeError "Field 'id' expected a number but got AnonymousUser")
  | Authenticated u =>
      Return (filter (fun p => User.eqb (Blog.user (Post.blog p)) u) qs)
  end.
End QuerySet.

(** ** The database, the call trace and the monad of the hooks *)

Module DB.
Record t : Type := mk
  { blogs : list Blog.t;
    posts : list Post.t }.
End DB.

(** Calls made on the objects handed to a hook: [serializer.save]
    with the [blog] keyword when one is passed, and [instance.delete()]. *)
Inductive Call : Type :=
| SerializerSave (blog : option Blog.t)
| InstanceDelete.

Record World : Type := mkWorld
  { db : DB.t;
    calls : list Call }.

Definition M (A : Type) : Type := World -> Exc A * World.

Definition ret {A : Type} (a : A) : M A := fun w => (Return a, w).

Definition raise {A : Type} (e : Exception) : M A := fun w => (Raise e, w).

Definition bind {A B : Type} (m : M A) (k : A -> M B) : M B :=
  fun w =>
    match m w with
    | (Return a, w') => k a w'
    | (Raise e, w') => (Raise e, w')
    end.

Definition lift {A : Type} (r : Exc A) : M A := fun w => (r, w).

Declare Scope hook_scope.
Delimit Scope hook_scope with hook.
Notation "x <- m ;; k" := (bind m (fun x => k))
  (at level 100, m at next level, right associativity) : hook_scope.
Local Open Scope hook_scope.

(** ** The objects handed to the hooks *)

(** A serializer is used through [save] alone; what saving does to the
    tables is the serializer's own business. *)
Record Serializer : Type := mkSerializer
  { save_effect : option Blog.t -> DB.t -> Exc unit * DB.t }.

Definition save (serializer : Serializer) (blog : option Blog.t) : M unit :=
  fun w =>
    let (r, d) := save_effect serializer blog (db w) in
    (r, mkWorld d (calls w ++ [SerializerSave blog])).

(** A model instance: its row and what its [delete()] does to the tables. *)
Record Instance (T : Type) : Type := mkInstance
  { row : T;
    delete_effect : DB.t -> Exc unit * DB.t }.

Arguments mkInstance {T} row delete_effect.
Arguments row {T} i.
Arguments delete_effect {T} i.

Definition delete {T : Type} (instance : Instance T) : M unit :=
  fun w =>
    let (r, d) := delete_effect instance (db w) in
    (r, mkWorld d (calls w ++ [InstanceDelete])).

(** ** The Blog manager and the reverse accessor [user.blog] *)

Definition owned_by (u : User.t) (b : Blog.t) : bool :=
  User.eqb (Blog.user b) u.

Definition next_pk (bs : list Blog.t) : Z :=
  1 + fold_right (fun b m => Z.max (Blog.pk b) m) 0 bs.

(** Modelled from the spec: [Blog.objects.create(title=, description=,
    user=)] of the absent [models.py].  The row gets a fresh key and is
    inserted; the user must be a [User] row, and a second blog of one user
    violates the one-blog-per-user constraint. *)
Definition Blog_objects_create
    (title description : string) (ru : RequestUser) : M Blog.t :=
  fun w =>
    match ru with
    | AnonymousUser =>
        (Raise (ValueError "Blog.user must be a User instance"), w)
    | Authenticated u =>
        if existsb (owned_by u) (DB.blogs (db w)) then
          (Raise (IntegrityError "UNIQUE constraint failed: blog.user_id"), w)
        else
          let b := Blog.mk (next_pk (DB.blogs (db w))) title description u in
          (Return b,
           mkWorld (DB.mk (DB.blogs (db w) ++ [b]) (DB.posts (db w)))
                   (calls w))
    end.

(** Modelled from the spec: the attribute [user.blog], the user's one blog.
    It raises an [AttributeError] when the user has none, and an
    [AnonymousUser] has no such attribute. *)
Definition getattr_blog (ru : RequestUser) : M Blog.t :=
  fun w =>
    match ru with
    | AnonymousUser => (Raise (AttributeError "blog"), w)
    | Authenticated u =>
        match find (owned_by u) (DB.blogs (db w)) with
        | Some b => (Return b, w)
        | None => (Raise (AttributeError "blog"), w)
        end
    end.

(** Python's [hasattr(obj, "blog")]: [getattr] with [AttributeError]
    turned into [False]. *)
Definition hasattr_blog (ru : RequestUser) : M bool :=
  fun w =>
    match getattr_blog ru w with
    | (Return _, w') => (Return true, w')
    | (Raise (AttributeError _), w') => (Return false, w')
    | (Raise e, w') => (Raise e, w')
    end.

(** ** PostReadonlyFieldsMixin *)

Module PostReadonlyFieldsMixin.
Section Mixin.
Variable T : Type.
(** [super().get_readonly_fields(request, obj)] *)
Variable super_get_readonly_fields : Request -> option T -> list string.

(** ["blog" in ro] *)
Definition contains (name : string) (ro : list string) : bool :=
  existsb (String.eqb name) ro.

Definition is_not_None (obj : option T) : bool :=
  match obj with
  | Some _ => true
  | None => false
  end.

Definition get_readonly_fields
    (request : Request) (obj : option T) : list string :=
  let ro := super_get_readonly_fields request obj in
  if negb (is_superuser (user request))
     && is_not_None obj
     && negb (contains "blog" ro)
  then ro ++ ["blog"%string]
  else ro.
End Mixin.
End PostReadonlyFieldsMixin.

(** ** Permission classes of [rest_framework.permissions] *)

Module permissions.
Inductive PermissionClass : Type :=
| AllowAny
| IsAuthenticated.

(** [permission()]: an instance of the class. *)
Inductive Permission : Type :=
| instance_of (cls : PermissionClass).
End permissions.

(** [self.action == name] *)
Definition action_is {T : Type} (self : View T) (name : string) : bool :=
  match action self with
  | Some a => String.eqb a name
  | None => false
  end.

(** ** PublicReadOnlyMixin *)

Module PublicReadOnlyMixin.
Definition get_permissions {T : Type} (self : View T)
    : list permissions.Permission :=
  let permission_classes :=
    if action_is self "list" || action_is self "retrieve"
    then [permissions.AllowAny]
    else [permissions.IsAuthenticated] in
  map permissions.instance_of permission_classes.
End PublicReadOnlyMixin.

(** ** BlogOwnerPermissionMixin *)

Module BlogOwnerPermissionMixin.
Definition get_permissions (self : View Blog.t)
    : list permissions.Permission :=
  let permission_classes :=
    if action_is self "list" || action_is self "retrieve"
    then [permissions.AllowAny]
    else [permissions.IsAuthenticated] in
  map permissions.instance_of permission_classes.

Definition perform_update
    (self : View Blog.t) (serializer : Serializer) : M unit :=
  blog <- lift (get_object self) ;;
  if user_ne (Blog.user blog) (user (request self))
     && negb (is_superuser (user (request self)))
  then raise (PermissionDenied "Only the owner of the blog can edit it")
  else save serializer None.

Definition perform_destroy
    (self : View Blog.t) (instance : Instance Blog.t) : M unit :=
  if user_ne (Blog.user (row instance)) (user (request self))
     && negb (is_superuser (user (request self)))
  then raise (PermissionDenied "Only the owner of the blog can delete it")
  else delete instance.
End BlogOwnerPermissionMixin.

(** ** PostOwnerQuerysetAdminMixin *)

Module PostOwnerQuerysetAdminMixin.
Section Mixin.
(** [super().get_queryset(request)] *)
Variable super_get_queryset : Request -> QuerySet.t.

Definition get_queryset (request : Request) : Exc QuerySet.t :=
  let qs := super_get_queryset request in
  if negb (is_authenticated (user request)) then
    Return (QuerySet.none qs)
  else if negb (is_superuser (user request)) then
    QuerySet.filter_blog__user qs (user request)
  else
    Return qs.
End Mixin.
End PostOwnerQuerysetAdminMixin.

(** ** PostOwnerQuerysetViewSetMixin *)

Module PostOwnerQuerysetViewSetMixin.
Section Mixin.
(** [super().get_queryset()] *)
Variable super_get_queryset : View Post.t -> QuerySet.t.

Definition get_queryset (self : View Post.t) : Exc QuerySet.t :=
  let qs := super_get_queryset self in
  if negb (is_authenticated (user (request self))) then
    Return qs
  else if negb (is_superuser (user (request self))) then
    QuerySet.filter_blog__user qs (user (request self))
  else
    Return qs.
End Mixin.
End PostOwnerQuerysetViewSetMixin.

(** ** PostEditorMixin *)

Module PostEditorMixin.
Section Mixin.
(** [can_edit_post] of the absent [CMSServer/permissions.py], a predicate
    on the acting user and the post. *)
Variable can_edit_post : RequestUser -> Post.t -> bool.

Definition perform_create
    (self : View Post.t) (serializer : Serializer) : M unit :=
  if negb (is_authenticated (user (request self))) then
    raise (AuthenticationError "Authentication required to create posts.")
  else
    has_blog <- hasattr_blog (user (request self)) ;;
    if negb has_blog then
      blog <- Blog_objects_create
                (String.append "Blog de " (username (user (request self))))
                "Blog personal"
                (user (request self)) ;;
      save serializer (Some blog)
    else
      blog <- getattr_blog (user (request self)) ;;
      save serializer (Some blog).

Definition perform_update
    (self : View Post.t) (serializer : Serializer) : M unit :=
  if negb (is_authenticated (user (request self))) then
    raise (AuthenticationError "Authentication required to edit posts.")
  else
    post <- lift (get_object self) ;;
    if negb (can_edit_post (user (request self)) post) then
      raise (DjangoPermissionDenied "You are not allowed to edit this post.")
    else save serializer None.

Definition perform_destroy
    (self : View Post.t) (instance : Instance Post.t) : M unit :=
  if negb (is_authenticated (user (request self))) then
    raise (AuthenticationError "Authentication required to delete posts.")
  else if negb (can_edit_post (user (request self)) (row instance)) then
    raise (DjangoPermissionDenied "You are not allowed to delete this post.")
  else delete instance.
End Mixin.
End PostEditorMixin.

(** ** AuthenticationMixin *)

(** What the credential helper may hand back: a user row, or one of
    Python's falsy values. *)
Inductive PyValue : Type :=
| PyNone
| PyBool (b : bool)
| PyUser (u : User.t).

(** Python truthiness; a model instance is always truthy. *)
Definition truthy (v : PyValue) : bool :=
  match v with
  | PyNone => false
  | PyBool b => b
  | PyUser _ => true
  end.

Module AuthenticationMixin.
Section Mixin.
(** [authenticate_user] of the absent [CMSServer/utils.py]. *)
Variable utils_authenticate_user : string -> string -> PyValue.

Definition authenticate_user (username password : string) : Exc PyValue :=
  let user := utils_authenticate_user username password in
  if negb (truthy user) then
    Raise (InvalidCredentialsError "Invalid credentials")
  else
    Return user.
End Mixin.
End AuthenticationMixin.

(** ** LimitBlogChoicesToOwnerMixin *)

(** A model field, known to the hook by its [name]. *)
Module DbField.
Record t : Type := mk
  { name : string }.
End DbField.

(** A form field: its label, and its [queryset] attribute when it has one,
    as the choice field of a foreign key to blogs has. *)
Module FormField.
Record t : Type := mk
  { label : string;
    queryset : option (list Blog.t) }.
End FormField.

(** [queryset.filter(user=user)] on a queryset of blogs; as with posts, an
    [AnonymousUser] has no key to compare with. *)
Definition filter_user (qs : list Blog.t) (ru : RequestUser)
    : Exc (list Blog.t) :=
  match ru with
  | AnonymousUser =>
      Raise (TypeError "Field 'id' expected a number but got AnonymousUser")
  | Authenticated u => Return (filter (owned_by u) qs)
  end.

Module LimitBlogChoicesToOwnerMixin.
Section Mixin.
(** The keyword arguments handed on to the parent. *)
Variable Kwargs : Type.
(** [super().formfield_for_foreignkey(db_field, request, **kwargs)];
    [None] when the parent makes no form field. *)
Variable super_formfield_for_foreignkey :
  DbField.t -> Request -> Kwargs -> option FormField.t.

Definition formfield_for_foreignkey
    (db_field : DbField.t) (request : Request) (kwargs : Kwargs)
    : Exc (option FormField.t) :=
  let formfield := super_formfield_for_foreignkey db_field request kwargs in
  if String.eqb (DbField.name db_field) "blog"
     && negb (is_superuser (user request))
  then
    match formfield with
    | Some ff =>
        match FormField.queryset ff with
        | Some qs =>
            match filter_user qs (user request) with
            | Return owned =>
                Return (Some (FormField.mk (FormField.label ff) (Some owned)))
            | Raise e => Raise e
            end
        | None => Return formfield
        end
    | None => Return formfield
    end
  else Return formfield.
End Mixin.
End LimitBlogChoicesToOwnerMixin.

(** ** PostEditorMixin.save_model, the admin side of the post editor *)

(** The admin form: [changed_data] when the form has that attribute. *)
Module Form.
Record t : Type := mk
  { changed_data : option (list string) }.
End Form.

(** [getattr(form, "changed_data", [])] *)
Definition getattr_changed_data (form : Form.t) : list string :=
  match Form.changed_data form with
  | Some names => names
  | None => []
  end.

Module PostEditorAdmin.
Section Mixin.
(** [can_add_post] and [can_edit_post] of the absent
    [CMSServer/permissions.py]; [save_model] applies both to [obj.blog]. *)
Variable can_add_post : RequestUser -> Blog.t -> bool.
Variable can_edit_post : RequestUser -> Blog.t -> bool.
(** [super().save_model(request, obj, form, change)] *)
Variable super_save_model : Request -> Post.t -> Form.t -> bool -> M unit.

Definition save_model
    (request : Request) (obj : Post.t) (form : Form.t) (change : bool)
    : M unit :=
  if is_superuser (user request) then
    super_save_model request obj form change
  else
    _ <- (if negb change then
            if negb (can_add_post (user request) (Post.blog obj)) then
              raise (DjangoPermissionDenied
                       "You are not allowed to add this post.")
            else ret tt
          else
            if PostReadonlyFieldsMixin.contains
                 "blog" (getattr_changed_data form)
            then
              if negb (can_edit_post (user request) (Post.blog obj)) then
                raise (DjangoPermissionDenied
                         "You are not allowed to move the post to a blog that is not yours.")
              else ret tt
            else ret tt) ;;
    super_save_model request obj form change.
End Mixin.
End PostEditorAdmin.

(** ** Table invariants *)

(** No two rows of the blog table belong to one user, and no two share a
    key. *)
Definition one_blog_per_user (d : DB.t) : Prop :=
  NoDup (map (fun b => User.pk (Blog.user b)) (DB.blogs d)).

Definition unique_blog_keys (d : DB.t) : Prop :=
  NoDup (map Blog.pk (DB.blogs d)).

(** A serializer whose [save] leaves the blog table alone. *)
Definition keeps_blogs (serializer : Serializer) : Prop :=
  forall (blog : option Blog.t) (d : DB.t),
    DB.blogs (snd (save_effect serializer blog d)) = DB.blogs d.

(** ** Sample admin

    A parent admin whose [save_model] stores the post it is given, and an
    ownership test on blogs to stand for [can_add_post] and
    [can_edit_post]. *)

Module SampleAdmin.
Definition super_save_model
    (_ : Request) (obj : Post.t) (_ : Form.t) (_ : bool) : M unit :=
  fun w =>
    (Return tt,
     mkWorld (DB.mk (DB.blogs (db w)) (DB.posts (db w) ++ [obj])) (calls w)).

Definition owns_blog (ru : RequestUser) (b : Blog.t) : bool :=
  user_eq (Blog.user b) ru.

Definition request_of (u : User.t) : Request := mkRequest (Authenticated u).

Definition alice : User.t := User.mk 1 "alice" false.
Definition carol : User.t := User.mk 2 "carol" false.
Definition root : User.t := User.mk 3 "root" true.
Definition blog1 : Blog.t := Blog.mk 1 "Blog de alice" "Blog personal" alice.
Definition blog2 : Blog.t := Blog.mk 2 "Blog de carol" "Blog personal" carol.
Definition tables : DB.t := DB.mk [blog1; blog2] [].
Definition world : World := mkWorld tables [].
Definition draft : Post.t := Post.mk 7 "Draft" blog1.
End SampleAdmin.

(** ** The post serializer *)

(** Modelled from the spec: [CMSServer/serializers.py] is not among the
    sources.  The post serializer in create mode holds the validated data
    of the client, a title and the blog the client named if it named one.
    Saving attaches the post to the blog given to [save] by keyword, the
    validated data being used for the blog only when no keyword is given,
    and inserts the row; a post without a blog cannot be stored. *)
Module PostSerializer.
Definition save_effect
    (title : string) (client_blog : option Blog.t)
    (blog : option Blog.t) (d : DB.t) : Exc unit * DB.t :=
  let validated_blog := match blog with
                        | Some b => Some b
                        | None => client_blog
                        end in
  match validated_blog with
  | Some b =>
      (Return tt,
       DB.mk (DB.blogs d)
             (DB.posts d
              ++ [Post.mk (1 + Z.of_nat (List.length (DB.posts d))) title b]))
  | None =>
      (Raise (IntegrityError "NOT NULL constraint failed: post.blog_id"), d)
  end.

Definition make (title : string) (client_blog : option Blog.t) : Serializer :=
  mkSerializer (save_effect title client_blog).
End PostSerializer.

(** The rule of [save] that the hooks rely on: a serializer told
    [blog=b] attaches what it stores to [b].  Every post found in the
    table after [save(blog=b)] was there before or is on [b]. *)
Definition keyword_overrides_payload (serializer : Serializer) : Prop :=
  forall (b : Blog.t) (d : DB.t) (p : Post.t),
    In p (DB.posts (snd (save_effect serializer (Some b) d))) ->
    In p (DB.posts d) \/ Post.blog p = b.

(** ** Vocabulary of the properties *)

(** [p.blog.user == u], as Python compares model rows. *)
Definition post_owner_is (u : User.t) (p : Post.t) : Prop :=
  User.pk (Blog.user (Post.blog p)) = User.pk u.

(** The user has a row in the blog table. *)
Definition has_blog (u : User.t) (d : DB.t) : Prop :=
  exists b : Blog.t, In b (DB.blogs d) /\ owned_by u b = true.

(** The blog that [perform_create] makes for a user without one. *)
Definition provisioned_blog (u : User.t) (d : DB.t) : Blog.t :=
  Blog.mk (next_pk (DB.blogs d))
          (String.append "Blog de " (User.username u))
          "Blog personal" u.

(** ** Sample rows

    Two authors with a blog and a post each, an administrator, and a
    visitor who is not logged in. *)

Module Sample.
Definition alice : User.t := User.mk 1 "alice" false.
Definition carol : User.t := User.mk 2 "carol" false.
Definition root : User.t := User.mk 3 "root" true.
Definition dave : User.t := User.mk 4 "dave" false.

Definition blog1 : Blog.t := Blog.mk 1 "Blog de alice" "Blog personal" alice.
Definition blog2 : Blog.t := Blog.mk 2 "Blog de carol" "Blog personal" carol.

Definition post1 : Post.t := Post.mk 1 "P1" blog1.
Definition post2 : Post.t := Post.mk 2 "P2" blog2.

Definition all_posts : QuerySet.t := [post1; post2].

Definition view_of {T : Type} (ru : RequestUser) (target : Exc T) : View T :=
  mkView (mkRequest ru) (Some "update"%string) target.

Definition tables : DB.t := DB.mk [blog1; blog2] [post1; post2].
Definition world : World := mkWorld tables [].

(** A serializer that validates and stores nothing, as a test double. *)
Definition mock_serializer : Serializer :=
  mkSerializer (fun _ d => (Return tt, d)).

(** A post serializer in create mode.  Keyword arguments of [save] take
    precedence over the validated data of the client; a post without a
    blog cannot be stored. *)
Definition post_serializer
    (title : string) (client_blog : option Blog.t) : Serializer :=
  mkSerializer
    (fun blog d =>
       let merged := match blog with
                     | Some b => Some b
                     | None => client_blog
                     end in
       match merged with
       | Some b =>
           (Return tt,
            DB.mk (DB.blogs d)
                  (DB.posts d
                   ++ [Post.mk (1 + Z.of_nat (List.length (DB.posts d))) title b]))
       | None =>
           (Raise (IntegrityError "NOT NULL constraint failed: post.blog_id"),
            d)
       end).

(** Row instances whose [delete()] removes the row, and with a blog its
    posts. *)
Definition blog_instance (b : Blog.t) : Instance Blog.t :=
  mkInstance b
    (fun d =>
       (Return tt,
        DB.mk (filter (fun x => negb (Blog.pk x =? Blog.pk b)) (DB.blogs d))
              (filter (fun p => negb (Blog.pk (Post.blog p) =? Blog.pk b))
                      (DB.posts d)))).

Definition post_instance (p : Post.t) : Instance Post.t :=
  mkInstance p
    (fun d =>
       (Return tt,
        DB.mk (DB.blogs d)
              (filter (fun x => negb (Post.pk x =? Post.pk p)) (DB.posts d)))).

(** An ownership predicate to stand for [can_edit_post]. *)
Definition owner_or_superuser (ru : RequestUser) (p : Post.t) : bool :=
  is_superuser ru || user_eq (Blog.user (Post.blog p)) ru.
End Sample.

(** * Properties *)

(** ** Equality of users and basic facts about the monad *)

Lemma User_eqb_eq (u v : User.t) : User.eqb u v = true <-> User.pk u = User.pk v.
Proof. unfold User.eqb. apply Z.eqb_eq. Qed.

Lemma User_eqb_refl (u : User.t) : User.eqb u u = true.
Proof. apply User_eqb_eq. reflexivity. Qed.

Lemma not_authenticated_anonymous (ru : RequestUser) :
  is_authenticated ru = false <-> ru = AnonymousUser.
Proof. destruct ru; simpl; split; congruence. Qed.

Lemma superuser_authenticated (ru : RequestUser) :
  is_superuser ru = true -> is_authenticated ru = true.
Proof. destruct ru; simpl; congruence. Qed.

Lemma filter_blog__user_In (qs : QuerySet.t) (u : User.t) (p : Post.t) :
  In p (filter (fun p => User.eqb (Blog.user (Post.blog p)) u) qs)
  <-> In p qs /\ post_owner_is u p.
Proof.
  rewrite filter_In. unfold post_owner_is.
  rewrite User_eqb_eq. reflexivity.
Qed.

(** ** Queryset scoping *)

Section QuerysetScoping.
Variable admin_super : Request -> QuerySet.t.
Variable viewset_super : View Post.t -> QuerySet.t.

Lemma admin_get_queryset_owner (request : Request) (u : User.t) :
  user request = Authenticated u ->
  User.is_superuser u = false ->
  PostOwnerQuerysetAdminMixin.get_queryset admin_super request
  = Return (filter (fun p => User.eqb (Blog.user (Post.blog p)) u)
                   (admin_super request)).
Proof.
  intros Hu Hs. unfold PostOwnerQuerysetAdminMixin.get_queryset.
  rewrite Hu. simpl. rewrite Hs. reflexivity.
Qed.

Lemma viewset_get_queryset_owner (self : View Post.t) (u : User.t) :
  user (request self) = Authenticated u ->
  User.is_superuser u = false ->
  PostOwnerQuerysetViewSetMixin.get_queryset viewset_super self
  = Return (filter (fun p => User.eqb (Blog.user (Post.blog p)) u)
                   (viewset_super self)).
Proof.
  intros Hu Hs. unfold PostOwnerQuerysetViewSetMixin.get_queryset.
  rewrite Hu. simpl. rewrite Hs. reflexivity.
Qed.

Lemma admin_get_queryset_superuser (request : Request) :
  is_superuser (user request) = true ->
  PostOwnerQuerysetAdminMixin.get_queryset admin_super request
  = Return (admin_super request).
Proof.
  intros Hs. unfold PostOwnerQuerysetAdminMixin.get_queryset.
  rewrite (superuser_authenticated _ Hs), Hs. reflexivity.
Qed.

Lemma viewset_get_queryset_superuser (self : View Post.t) :
  is_superuser (user (request self)) = true ->
  PostOwnerQuerysetViewSetMixin.get_queryset viewset_super self
  = Return (viewset_super self).
Proof.
  intros Hs. unfold PostOwnerQuerysetViewSetMixin.get_queryset.
  rewrite (superuser_authenticated _ Hs), Hs. reflexivity.
Qed.

(** C1: for an authenticated requesting user [u] who is not a superuser,
    both [get_queryset] hooks return exactly the posts [p] of the parent's
    queryset with [p.blog.user == u], in the parent's order; for a superuser
    both return the parent's queryset unfiltered. *)
Theorem owner_queryset_scoping (self : View Post.t) :
  (forall u : User.t,
      user (request self) = Authenticated u ->
      User.is_superuser u = false ->
      exists qa qv : QuerySet.t,
        PostOwnerQuerysetAdminMixin.get_queryset admin_super (request self)
        = Return qa
        /\ PostOwnerQuerysetViewSetMixin.get_queryset viewset_super self
           = Return qv
        /\ (forall p, In p qa <->
                      In p (admin_super (request self)) /\ post_owner_is u p)
        /\ (forall p, In p qv <->
                      In p (viewset_super self) /\ post_owner_is u p)
        /\ qa = filter (fun p => User.eqb (Blog.user (Post.blog p)) u)
                       (admin_super (request self))
        /\ qv = filter (fun p => User.eqb (Blog.user (Post.blog p)) u)
                       (viewset_super self))
  /\ (is_superuser (user (request self)) = true ->
      PostOwnerQuerysetAdminMixin.get_queryset admin_super (request self)
      = Return (admin_super (request self))
      /\ PostOwnerQuerysetViewSetMixin.get_queryset viewset_super self
         = Return (viewset_super self)).
Proof.
  split.
  - intros u Hu Hs.
    eexists; eexists.
    split; [ apply (admin_get_queryset_owner _ u Hu Hs) | ].
    split; [ apply (viewset_get_queryset_owner _ u Hu Hs) | ].
    split; [ intros p; apply filter_blog__user_In | ].
    split; [ intros p; apply filter_blog__user_In | ].
    split; reflexivity.
  - intros Hs. split.
    + apply admin_get_queryset_superuser; exact Hs.
    + apply viewset_get_queryset_superuser; exact Hs.
Qed.

(** C2: for an unauthenticated request the admin hook returns the empty
    queryset and the viewset hook returns the parent's queryset unfiltered;
    over all parent querysets the two hooks agree exactly for the
    authenticated users. *)
Theorem unauthenticated_queryset_divergence (self : View Post.t) :
  (is_authenticated (user (request self)) = false ->
   PostOwnerQuerysetAdminMixin.get_queryset admin_super (request self)
   = Return []
   /\ PostOwnerQuerysetViewSetMixin.get_queryset viewset_super self
      = Return (viewset_super self))
  /\ ((forall qs : QuerySet.t,
          PostOwnerQuerysetAdminMixin.get_queryset (fun _ => qs) (request self)
          = PostOwnerQuerysetViewSetMixin.get_queryset (fun _ => qs) self)
      <-> is_authenticated (user (request self)) = true).
Proof.
  split; [ | split ].
  - intros Ha.
    unfold PostOwnerQuerysetAdminMixin.get_queryset,
      PostOwnerQuerysetViewSetMixin.get_queryset.
    rewrite Ha. split; reflexivity.
  - intros Hagree.
    destruct (is_authenticated (user (request self))) eqn:Ha; [ reflexivity | ].
    specialize (Hagree [Sample.post1]).
    unfold PostOwnerQuerysetAdminMixin.get_queryset,
      PostOwnerQuerysetViewSetMixin.get_queryset in Hagree.
    rewrite Ha in Hagree. discriminate Hagree.
  - intros Ha qs.
    unfold PostOwnerQuerysetAdminMixin.get_queryset,
      PostOwnerQuerysetViewSetMixin.get_queryset.
    rewrite Ha. reflexivity.
Qed.
End QuerysetScoping.

Lemma owner_queryset_scoping_witness :
  PostOwnerQuerysetAdminMixin.get_queryset
    (fun _ => Sample.all_posts) (mkRequest (Authenticated Sample.alice))
  = Return [Sample.post1]
  /\ PostOwnerQuerysetViewSetMixin.get_queryset
       (fun _ => Sample.all_posts)
       (Sample.view_of (Authenticated Sample.alice) (Return Sample.post1))
     = Return [Sample.post1]
  /\ PostOwnerQuerysetAdminMixin.get_queryset
       (fun _ => Sample.all_posts) (mkRequest (Authenticated Sample.root))
     = Return [Sample.post1; Sample.post2]
  /\ PostOwnerQuerysetViewSetMixin.get_queryset
       (fun _ => Sample.all_posts)
       (Sample.view_of (Authenticated Sample.root) (Return Sample.post1))
     = Return [Sample.post1; Sample.post2].
Proof.
  destruct (owner_queryset_scoping
              (fun _ => Sample.all_posts) (fun _ => Sample.all_posts)
              (Sample.view_of (Authenticated Sample.alice)
                              (Return Sample.post1))) as [Howner _].
  destruct (Howner Sample.alice eq_refl eq_refl)
    as (qa & qv & Ha & Hv & _ & _ & Ea & Ev).
  destruct (owner_queryset_scoping
              (fun _ => Sample.all_posts) (fun _ => Sample.all_posts)
              (Sample.view_of (Authenticated Sample.root)
                              (Return Sample.post1))) as [_ Hroot].
  destruct (Hroot eq_refl) as [Hra Hrv].
  rewrite Ea in Ha. rewrite Ev in Hv.
  repeat split; assumption.
Defined.

Lemma unauthenticated_queryset_divergence_witness :
  PostOwnerQuerysetAdminMixin.get_queryset
    (fun _ => Sample.all_posts) (mkRequest AnonymousUser)
  = Return []
  /\ PostOwnerQuerysetViewSetMixin.get_queryset
       (fun _ => Sample.all_posts)
       (Sample.view_of AnonymousUser (Return Sample.post1))
     = Return [Sample.post1; Sample.post2].
Proof.
  destruct (unauthenticated_queryset_divergence
              (fun _ => Sample.all_posts) (fun _ => Sample.all_posts)
              (Sample.view_of AnonymousUser (Return Sample.post1)))
    as [Hanon _].
  exact (Hanon eq_refl).
Defined.

(** ** Read-only fields of the post admin *)

Section ReadonlyFields.
Variable T : Type.
Variable super_get_readonly_fields : Request -> option T -> list string.

Local Abbreviation get_readonly_fields :=
  (PostReadonlyFieldsMixin.get_readonly_fields T super_get_readonly_fields).

Lemma contains_In (name : string) (ro : list string) :
  PostReadonlyFieldsMixin.contains name ro = true <-> In name ro.
Proof.
  unfold PostReadonlyFieldsMixin.contains. rewrite existsb_exists. split.
  - intros (x & Hx & Heq). apply String.eqb_eq in Heq. subst x. exact Hx.
  - intros Hin. exists name. split; [ exact Hin | apply String.eqb_refl ].
Qed.

Lemma contains_not_In (name : string) (ro : list string) :
  PostReadonlyFieldsMixin.contains name ro = false <-> ~ In name ro.
Proof.
  rewrite <- contains_In.
  destruct (PostReadonlyFieldsMixin.contains name ro); split; congruence.
Qed.

(** The hook returns the parent's list, or the parent's list followed by
    ["blog"]; the latter exactly on the guarded branch. *)
Lemma get_readonly_fields_cases (request : Request) (obj : option T) :
  let ro := super_get_readonly_fields request obj in
  (is_superuser (user request) = false /\ obj <> None /\ ~ In "blog"%string ro
   /\ get_readonly_fields request obj = ro ++ ["blog"%string])
  \/ ((is_superuser (user request) = true \/ obj = None \/ In "blog"%string ro)
      /\ get_readonly_fields request obj = ro).
Proof.
  intros ro.
  unfold PostReadonlyFieldsMixin.get_readonly_fields. fold ro.
  destruct (is_superuser (user request)) eqn:Hs; simpl.
  - right. split; [ left | ]; reflexivity.
  - destruct obj as [o | ]; simpl.
    + destruct (PostReadonlyFieldsMixin.contains "blog" ro) eqn:Hc; simpl.
      * right. split; [ | reflexivity ].
        right; right. apply contains_In. exact Hc.
      * left. repeat split; try congruence.
        apply contains_not_In. exact Hc.
    + right. split; [ | reflexivity ]. right; left. reflexivity.
Qed.

(** C3, as amended: when the requesting user is not a superuser and the
    object exists, ["blog"] is in the returned list; for a superuser, or
    for a new object, the returned list is the parent's list unchanged, so
    ["blog"] is absent from it unless the parent's list already has it. *)
Theorem readonly_fields_blog (request : Request) (obj : option T) :
  (is_superuser (user request) = false -> obj <> None ->
   In "blog"%string (get_readonly_fields request obj))
  /\ (is_superuser (user request) = true \/ obj = None ->
      get_readonly_fields request obj = super_get_readonly_fields request obj
      /\ (~ In "blog"%string (super_get_readonly_fields request obj) ->
          ~ In "blog"%string (get_readonly_fields request obj))).
Proof.
  destruct (get_readonly_fields_cases request obj)
    as [(Hs & Ho & Hn & E) | (Hc & E)]; rewrite E; split.
  - intros _ _. apply in_or_app. right. left. reflexivity.
  - intros [Hs' | Ho']; congruence.
  - intros Hs Ho. destruct Hc as [Hc | [Hc | Hc]]; congruence || exact Hc.
  - intros _. split; [ reflexivity | tauto ].
Qed.

(** C10: the returned list keeps every field of the parent's list, and
    ["blog"] is appended at most once: the result is the parent's list or
    the parent's list followed by one ["blog"], and when the parent's list
    already has ["blog"] the result is the parent's list itself. *)
Theorem readonly_fields_extend_parent (request : Request) (obj : option T) :
  let ro := super_get_readonly_fields request obj in
  let result := get_readonly_fields request obj in
  (forall field : string, In field ro -> In field result)
  /\ (result = ro \/ (result = ro ++ ["blog"%string] /\ ~ In "blog"%string ro))
  /\ (In "blog"%string ro -> result = ro)
  /\ (count_occ string_dec result "blog"%string
      <= Nat.max 1 (count_occ string_dec ro "blog"%string))%nat.
Proof.
  intros ro result. subst ro result.
  destruct (get_readonly_fields_cases request obj)
    as [(Hs & Ho & Hn & E) | (Hc & E)]; rewrite E.
  - split; [ | split; [ | split ] ].
    + intros field Hin. apply in_or_app. left. exact Hin.
    + right. split; [ reflexivity | exact Hn ].
    + intros Hin. contradiction.
    + rewrite count_occ_app.
      apply (count_occ_not_In string_dec) in Hn. rewrite Hn. simpl.
      destruct (string_dec "blog" "blog"); [ lia | congruence ].
  - split; [ | split; [ | split ] ].
    + intros field Hin. exact Hin.
    + left. reflexivity.
    + intros _. reflexivity.
    + lia.
Qed.
End ReadonlyFields.

(** The claim of C3 read literally fails when the parent class already
    lists ["blog"]: a superuser editing [post1] under such a parent gets
    ["blog"] back, and so does a plain user opening the form of a new
    post. *)
Lemma readonly_fields_blog_absent_counterexample :
  is_superuser (user (mkRequest (Authenticated Sample.root))) = true
  /\ In "blog"%string
        (PostReadonlyFieldsMixin.get_readonly_fields Post.t
           (fun _ _ => ["blog"%string])
           (mkRequest (Authenticated Sample.root)) (Some Sample.post1))
  /\ In "blog"%string
        (PostReadonlyFieldsMixin.get_readonly_fields Post.t
           (fun _ _ => ["blog"%string])
           (mkRequest (Authenticated Sample.alice)) None).
Proof.
  split; [ reflexivity | ].
  split; simpl; left; reflexivity.
Qed.

Lemma readonly_fields_blog_witness :
  In "blog"%string
     (PostReadonlyFieldsMixin.get_readonly_fields Post.t
        (fun _ _ => ["title"%string])
        (mkRequest (Authenticated Sample.alice)) (Some Sample.post1))
  /\ PostReadonlyFieldsMixin.get_readonly_fields Post.t
       (fun _ _ => ["title"%string])
       (mkRequest (Authenticated Sample.root)) (Some Sample.post1)
     = ["title"%string]
  /\ ~ In "blog"%string
       (PostReadonlyFieldsMixin.get_readonly_fields Post.t
          (fun _ _ => ["title"%string])
          (mkRequest (Authenticated Sample.alice)) None).
Proof.
  split; [ | split ].
  - apply (readonly_fields_blog Post.t (fun _ _ => ["title"%string])
             (mkRequest (Authenticated Sample.alice)) (Some Sample.post1)).
    + reflexivity.
    + discriminate.
  - apply (readonly_fields_blog Post.t (fun _ _ => ["title"%string])
             (mkRequest (Authenticated Sample.root)) (Some Sample.post1)).
    left. reflexivity.
  - apply (readonly_fields_blog Post.t (fun _ _ => ["title"%string])
             (mkRequest (Authenticated Sample.alice)) None).
    + right. reflexivity.
    + simpl. intros [H | []]. discriminate H.
Defined.

Lemma readonly_fields_extend_parent_witness :
  In "title"%string
     (PostReadonlyFieldsMixin.get_readonly_fields Post.t
        (fun _ _ => ["title"%string; "blog"%string])
        (mkRequest (Authenticated Sample.alice)) (Some Sample.post1))
  /\ PostReadonlyFieldsMixin.get_readonly_fields Post.t
       (fun _ _ => ["title"%string; "blog"%string])
       (mkRequest (Authenticated Sample.alice)) (Some Sample.post1)
     = ["title"%string; "blog"%string].
Proof.
  destruct (readonly_fields_extend_parent Post.t
              (fun _ _ => ["title"%string; "blog"%string])
              (mkRequest (Authenticated Sample.alice)) (Some Sample.post1))
    as (Hkeep & _ & Hsame & _).
  split.
  - apply Hkeep. simpl. left. reflexivity.
  - apply Hsame. simpl. right. left. reflexivity.
Defined.

(** ** Permission classes by action *)

(** C6: [PublicReadOnlyMixin.get_permissions] returns a one-element list:
    an [AllowAny] instance when the action is ["list"] or ["retrieve"], an
    [IsAuthenticated] instance for every other action, a missing action
    included. *)
Theorem public_read_only_permissions (T : Type) (self : View T) :
  (action self = Some "list"%string \/ action self = Some "retrieve"%string ->
   PublicReadOnlyMixin.get_permissions self
   = [permissions.instance_of permissions.AllowAny])
  /\ (action self <> Some "list"%string ->
      action self <> Some "retrieve"%string ->
      PublicReadOnlyMixin.get_permissions self
      = [permissions.instance_of permissions.IsAuthenticated]).
Proof.
  unfold PublicReadOnlyMixin.get_permissions, action_is. split.
  - intros [Ha | Ha]; rewrite Ha; reflexivity.
  - intros Hl Hr. destruct (action self) as [a | ]; [ | reflexivity ].
    destruct (String.eqb_spec a "list") as [E | _];
      [ subst a; congruence | ].
    destruct (String.eqb_spec a "retrieve") as [E | _];
      [ subst a; congruence | ].
    reflexivity.
Qed.

Lemma public_read_only_permissions_witness :
  PublicReadOnlyMixin.get_permissions
    (mkView (mkRequest AnonymousUser) (Some "retrieve"%string)
            (Return Sample.post1))
  = [permissions.instance_of permissions.AllowAny]
  /\ PublicReadOnlyMixin.get_permissions
       (mkView (mkRequest AnonymousUser) (Some "create"%string)
               (Return Sample.post1))
     = [permissions.instance_of permissions.IsAuthenticated]
  /\ PublicReadOnlyMixin.get_permissions
       (mkView (mkRequest AnonymousUser) None (Return Sample.post1))
     = [permissions.instance_of permissions.IsAuthenticated].
Proof.
  split; [ | split ].
  - apply (public_read_only_permissions Post.t
             (mkView (mkRequest AnonymousUser) (Some "retrieve"%string)
                     (Return Sample.post1))).
    right. reflexivity.
  - apply (public_read_only_permissions Post.t
             (mkView (mkRequest AnonymousUser) (Some "create"%string)
                     (Return Sample.post1))); discriminate.
  - apply (public_read_only_permissions Post.t
             (mkView (mkRequest AnonymousUser) None (Return Sample.post1)));
      discriminate.
Defined.

(** ** Credential check *)

Section Credentials.
Variable utils_authenticate_user : string -> string -> PyValue.

(** C8: [authenticate_user] raises [InvalidCredentialsError] exactly when
    the helper's result is falsy, and otherwise returns that result. *)
Theorem authenticate_user_wraps_helper (username password : string) :
  let helper := utils_authenticate_user username password in
  let outcome :=
    AuthenticationMixin.authenticate_user
      utils_authenticate_user username password in
  (truthy helper = false <->
   exists msg, outcome = Raise (InvalidCredentialsError msg))
  /\ (truthy helper = false <->
      outcome = Raise (InvalidCredentialsError "Invalid credentials"))
  /\ (truthy helper = true <-> outcome = Return helper)
  /\ (forall e, outcome = Raise e ->
                e = InvalidCredentialsError "Invalid credentials").
Proof.
  intros helper outcome. subst outcome.
  unfold AuthenticationMixin.authenticate_user. fold helper.
  destruct (truthy helper); simpl.
  - repeat split; try congruence.
    intros (msg & H). discriminate H.
  - repeat split; try congruence.
    exists "Invalid credentials"%string. reflexivity.
Qed.
End Credentials.

Lemma authenticate_user_wraps_helper_witness :
  AuthenticationMixin.authenticate_user
    (fun name _ => if String.eqb name "alice" then PyUser Sample.alice
                   else PyNone)
    "alice" "secret"
  = Return (PyUser Sample.alice)
  /\ AuthenticationMixin.authenticate_user
       (fun name _ => if String.eqb name "alice" then PyUser Sample.alice
                      else PyNone)
       "mallory" "guess"
     = Raise (InvalidCredentialsError "Invalid credentials").
Proof.
  split.
  - apply (authenticate_user_wraps_helper
             (fun name _ => if String.eqb name "alice"
                            then PyUser Sample.alice else PyNone)
             "alice" "secret").
    reflexivity.
  - apply (authenticate_user_wraps_helper
             (fun name _ => if String.eqb name "alice"
                            then PyUser Sample.alice else PyNone)
             "mallory" "guess").
    reflexivity.
Defined.

(** ** Facts about calls *)

Lemma save_run (serializer : Serializer) (blog : option Blog.t) (w : World) :
  save serializer blog w
  = (fst (save_effect serializer blog (db w)),
     mkWorld (snd (save_effect serializer blog (db w)))
             (calls w ++ [SerializerSave blog])).
Proof. unfold save. destruct (save_effect serializer blog (db w)); reflexivity. Qed.

Lemma delete_run (T : Type) (instance : Instance T) (w : World) :
  delete instance w
  = (fst (delete_effect instance (db w)),
     mkWorld (snd (delete_effect instance (db w)))
             (calls w ++ [InstanceDelete])).
Proof. unfold delete. destruct (delete_effect instance (db w)); reflexivity. Qed.

Lemma calls_grow (w : World) (d : DB.t) (c : Call) :
  mkWorld d (calls w ++ [c]) <> w.
Proof.
  intros H. apply (f_equal calls) in H. simpl in H.
  apply (f_equal (@List.length Call)) in H. rewrite length_app in H.
  simpl in H. lia.
Qed.

Lemma save_changes_world (serializer : Serializer) (blog : option Blog.t)
    (w : World) (r : Exc unit) :
  save serializer blog w <> (r, w).
Proof.
  rewrite save_run. intros H. injection H as _ H.
  exact (calls_grow _ _ _ H).
Qed.

Lemma delete_changes_world (T : Type) (instance : Instance T)
    (w : World) (r : Exc unit) :
  delete instance w <> (r, w).
Proof.
  rewrite delete_run. intros H. injection H as _ H.
  exact (calls_grow _ _ _ H).
Qed.

(** ** Updating and deleting a blog *)

(** C4: when the requesting user is neither the owner of the target blog nor
    a superuser, [perform_update] and [perform_destroy] raise
    [PermissionDenied] and leave the tables and the call trace as they
    were, so that neither [serializer.save] nor [instance.delete] is
    invoked; when the requester is the owner or a superuser, the hook is
    the call of [serializer.save()], respectively [instance.delete()]. *)
Theorem blog_owner_gate
    (self : View Blog.t) (serializer : Serializer)
    (instance : Instance Blog.t) (w : World) :
  let requester := user (request self) in
  (forall blog : Blog.t,
      get_object self = Return blog ->
      (user_eq (Blog.user blog) requester = false ->
       is_superuser requester = false ->
       BlogOwnerPermissionMixin.perform_update self serializer w
       = (Raise (PermissionDenied "Only the owner of the blog can edit it"),
          w))
      /\ (user_eq (Blog.user blog) requester = true
          \/ is_superuser requester = true ->
          BlogOwnerPermissionMixin.perform_update self serializer w
          = save serializer None w
          /\ calls (snd (BlogOwnerPermissionMixin.perform_update
                           self serializer w))
             = calls w ++ [SerializerSave None]))
  /\ (user_eq (Blog.user (row instance)) requester = false ->
      is_superuser requester = false ->
      BlogOwnerPermissionMixin.perform_destroy self instance w
      = (Raise (PermissionDenied "Only the owner of the blog can delete it"),
         w))
  /\ (user_eq (Blog.user (row instance)) requester = true
      \/ is_superuser requester = true ->
      BlogOwnerPermissionMixin.perform_destroy self instance w
      = delete instance w
      /\ calls (snd (BlogOwnerPermissionMixin.perform_destroy
                       self instance w))
         = calls w ++ [InstanceDelete]).
Proof.
  intros requester.
  unfold BlogOwnerPermissionMixin.perform_update,
    BlogOwnerPermissionMixin.perform_destroy, bind, lift, raise, user_ne.
  fold requester.
  split; [ | split ].
  - intros blog Hobj. rewrite Hobj. split.
    + intros Ho Hs. rewrite Ho, Hs. reflexivity.
    + intros Hallowed.
      assert (E : negb (user_eq (Blog.user blog) requester)
                  && negb (is_superuser requester) = false)
        by (destruct Hallowed as [H | H]; rewrite H;
            [ reflexivity | apply andb_false_r ]).
      rewrite E. split; [ reflexivity | ]. rewrite save_run. reflexivity.
  - intros Ho Hs. rewrite Ho, Hs. reflexivity.
  - intros Hallowed.
    assert (E : negb (user_eq (Blog.user (row instance)) requester)
                && negb (is_superuser requester) = false)
      by (destruct Hallowed as [H | H]; rewrite H;
          [ reflexivity | apply andb_false_r ]).
    rewrite E. split; [ reflexivity | ]. rewrite delete_run. reflexivity.
Qed.

Lemma blog_owner_gate_witness :
  BlogOwnerPermissionMixin.perform_update
    (Sample.view_of (Authenticated Sample.carol) (Return Sample.blog1))
    Sample.mock_serializer Sample.world
  = (Raise (PermissionDenied "Only the owner of the blog can edit it"),
     Sample.world)
  /\ BlogOwnerPermissionMixin.perform_destroy
       (Sample.view_of AnonymousUser (Return Sample.blog1))
       (Sample.blog_instance Sample.blog1) Sample.world
     = (Raise (PermissionDenied "Only the owner of the blog can delete it"),
        Sample.world)
  /\ calls (snd (BlogOwnerPermissionMixin.perform_update
                   (Sample.view_of (Authenticated Sample.alice)
                                   (Return Sample.blog1))
                   Sample.mock_serializer Sample.world))
     = [SerializerSave None]
  /\ BlogOwnerPermissionMixin.perform_destroy
       (Sample.view_of (Authenticated Sample.root) (Return Sample.blog1))
       (Sample.blog_instance Sample.blog1) Sample.world
     = (Return tt,
        mkWorld (DB.mk [Sample.blog2] [Sample.post2]) [InstanceDelete]).
Proof.
  split; [ | split; [ | split ] ].
  - destruct (blog_owner_gate
                (Sample.view_of (Authenticated Sample.carol)
                                (Return Sample.blog1))
                Sample.mock_serializer (Sample.blog_instance Sample.blog1)
                Sample.world) as (Hupd & _ & _).
    destruct (Hupd Sample.blog1 eq_refl) as [Hdenied _].
    apply Hdenied; reflexivity.
  - destruct (blog_owner_gate
                (Sample.view_of AnonymousUser (Return Sample.blog1))
                Sample.mock_serializer (Sample.blog_instance Sample.blog1)
                Sample.world) as (_ & Hdenied & _).
    apply Hdenied; reflexivity.
  - destruct (blog_owner_gate
                (Sample.view_of (Authenticated Sample.alice)
                                (Return Sample.blog1))
                Sample.mock_serializer (Sample.blog_instance Sample.blog1)
                Sample.world) as (Hupd & _ & _).
    destruct (Hupd Sample.blog1 eq_refl) as [_ Hallowed].
    apply Hallowed. left. reflexivity.
  - destruct (blog_owner_gate
                (Sample.view_of (Authenticated Sample.root)
                                (Return Sample.blog1))
                Sample.mock_serializer (Sample.blog_instance Sample.blog1)
                Sample.world) as (_ & _ & Hdel).
    destruct Hdel as [E _]; [ right; reflexivity | ].
    rewrite E. reflexivity.
Defined.

(** ** Creating, updating and deleting a post *)

Section PostEditor.
Variable can_edit_post : RequestUser -> Post.t -> bool.

Local Abbreviation perform_create :=
  (PostEditorMixin.perform_create).
Local Abbreviation perform_update :=
  (PostEditorMixin.perform_update can_edit_post).
Local Abbreviation perform_destroy :=
  (PostEditorMixin.perform_destroy can_edit_post).

Lemma perform_update_unfold
    (self : View Post.t) (serializer : Serializer) (post : Post.t)
    (w : World) :
  is_authenticated (user (request self)) = true ->
  get_object self = Return post ->
  perform_update self serializer w
  = if can_edit_post (user (request self)) post
    then save serializer None w
    else (Raise (DjangoPermissionDenied
                   "You are not allowed to edit this post."), w).
Proof.
  intros Ha Ho. unfold PostEditorMixin.perform_update, bind, lift, raise.
  rewrite Ha, Ho. simpl.
  destruct (can_edit_post (user (request self)) post); reflexivity.
Qed.

Lemma perform_destroy_unfold
    (self : View Post.t) (instance : Instance Post.t) (w : World) :
  is_authenticated (user (request self)) = true ->
  perform_destroy self instance w
  = if can_edit_post (user (request self)) (row instance)
    then delete instance w
    else (Raise (DjangoPermissionDenied
                   "You are not allowed to delete this post."), w).
Proof.
  intros Ha. unfold PostEditorMixin.perform_destroy, raise.
  rewrite Ha. simpl.
  destruct (can_edit_post (user (request self)) (row instance)); reflexivity.
Qed.

(** C7: when the user of the request is not authenticated, [perform_create],
    [perform_update] and [perform_destroy] raise [AuthenticationError] and
    leave the tables and the call trace untouched.  When the user is
    authenticated, [perform_update] and [perform_destroy] raise
    [PermissionDenied], again touching nothing, exactly when
    [can_edit_post(user, post)] is false, and are the call of
    [serializer.save()], respectively [instance.delete()], exactly when it
    is true. *)
Theorem post_editor_gate
    (self : View Post.t) (serializer : Serializer)
    (instance : Instance Post.t) (post : Post.t) (w : World) :
  let requester := user (request self) in
  (is_authenticated requester = false ->
   perform_create self serializer w
   = (Raise (AuthenticationError "Authentication required to create posts."),
      w)
   /\ perform_update self serializer w
      = (Raise (AuthenticationError "Authentication required to edit posts."),
         w)
   /\ perform_destroy self instance w
      = (Raise (AuthenticationError
                  "Authentication required to delete posts."), w))
  /\ (is_authenticated requester = true ->
      get_object self = Return post ->
      (perform_update self serializer w
       = (Raise (DjangoPermissionDenied
                   "You are not allowed to edit this post."), w)
       <-> can_edit_post requester post = false)
      /\ (perform_update self serializer w = save serializer None w
          <-> can_edit_post requester post = true))
  /\ (is_authenticated requester = true ->
      (perform_destroy self instance w
       = (Raise (DjangoPermissionDenied
                   "You are not allowed to delete this post."), w)
       <-> can_edit_post requester (row instance) = false)
      /\ (perform_destroy self instance w = delete instance w
          <-> can_edit_post requester (row instance) = true)).
Proof.
  intros requester. split; [ | split ].
  - intros Ha.
    unfold PostEditorMixin.perform_create, PostEditorMixin.perform_update,
      PostEditorMixin.perform_destroy, raise.
    fold requester. rewrite Ha. simpl. repeat split.
  - intros Ha Ho. rewrite (perform_update_unfold _ _ post _ Ha Ho).
    fold requester. destruct (can_edit_post requester post); split; split;
      try reflexivity; try congruence; intros H.
    + exfalso. exact (save_changes_world _ _ _ _ H).
    + exfalso. symmetry in H. exact (save_changes_world _ _ _ _ H).
  - intros Ha. rewrite (perform_destroy_unfold _ _ _ Ha).
    fold requester.
    destruct (can_edit_post requester (row instance)); split; split;
      try reflexivity; try congruence; intros H.
    + exfalso. exact (delete_changes_world _ _ _ _ H).
    + exfalso. symmetry in H. exact (delete_changes_world _ _ _ _ H).
Qed.
End PostEditor.

Lemma post_editor_gate_witness :
  PostEditorMixin.perform_create
    (Sample.view_of AnonymousUser (Return Sample.post1))
    Sample.mock_serializer Sample.world
  = (Raise (AuthenticationError "Authentication required to create posts."),
     Sample.world)
  /\ PostEditorMixin.perform_update Sample.owner_or_superuser
       (Sample.view_of (Authenticated Sample.carol) (Return Sample.post1))
       Sample.mock_serializer Sample.world
     = (Raise (DjangoPermissionDenied
                 "You are not allowed to edit this post."), Sample.world)
  /\ PostEditorMixin.perform_destroy Sample.owner_or_superuser
       (Sample.view_of (Authenticated Sample.alice) (Return Sample.post1))
       (Sample.post_instance Sample.post1) Sample.world
     = delete (Sample.post_instance Sample.post1) Sample.world.
Proof.
  split; [ | split ].
  - apply (post_editor_gate Sample.owner_or_superuser
             (Sample.view_of AnonymousUser (Return Sample.post1))
             Sample.mock_serializer (Sample.post_instance Sample.post1)
             Sample.post1 Sample.world).
    reflexivity.
  - apply (post_editor_gate Sample.owner_or_superuser
             (Sample.view_of (Authenticated Sample.carol)
                             (Return Sample.post1))
             Sample.mock_serializer (Sample.post_instance Sample.post1)
             Sample.post1 Sample.world); reflexivity.
  - apply (post_editor_gate Sample.owner_or_superuser
             (Sample.view_of (Authenticated Sample.alice)
                             (Return Sample.post1))
             Sample.mock_serializer (Sample.post_instance Sample.post1)
             Sample.post1 Sample.world); reflexivity.
Defined.

(** ** The blog of a new post *)

Lemma next_pk_above (bs : list Blog.t) (b : Blog.t) :
  In b bs -> Blog.pk b < next_pk bs.
Proof.
  unfold next_pk. induction bs as [ | x bs IH]; cbn [fold_right In].
  - intros [].
  - intros [E | Hin].
    + subst x. lia.
    + specialize (IH Hin). lia.
Qed.

Lemma find_None_existsb (u : User.t) (bs : list Blog.t) :
  find (owned_by u) bs = None -> existsb (owned_by u) bs = false.
Proof.
  induction bs as [ | x bs IH]; simpl; [ reflexivity | ].
  destruct (owned_by u x); [ discriminate | exact IH ].
Qed.

Lemma has_blog_find (u : User.t) (d : DB.t) :
  has_blog u d <->
  exists b, find (owned_by u) (DB.blogs d) = Some b.
Proof.
  split.
  - intros (b & Hin & Hown).
    destruct (find (owned_by u) (DB.blogs d)) as [b' | ] eqn:F.
    + exists b'. reflexivity.
    + rewrite (find_none _ _ F b Hin) in Hown. discriminate Hown.
  - intros (b & F). exists b. apply find_some in F. exact F.
Qed.

Lemma hasattr_blog_run (u : User.t) (w : World) :
  hasattr_blog (Authenticated u) w
  = (Return (match find (owned_by u) (DB.blogs (db w)) with
             | Some _ => true
             | None => false
             end), w).
Proof.
  unfold hasattr_blog, getattr_blog.
  destruct (find (owned_by u) (DB.blogs (db w))); reflexivity.
Qed.

Lemma perform_create_without_blog
    (self : View Post.t) (serializer : Serializer) (u : User.t) (w : World) :
  user (request self) = Authenticated u ->
  find (owned_by u) (DB.blogs (db w)) = None ->
  PostEditorMixin.perform_create self serializer w
  = save serializer (Some (provisioned_blog u (db w)))
      (mkWorld (DB.mk (DB.blogs (db w) ++ [provisioned_blog u (db w)])
                      (DB.posts (db w)))
               (calls w)).
Proof.
  intros Hu F. unfold PostEditorMixin.perform_create.
  rewrite Hu. cbn [is_authenticated negb]. unfold bind.
  rewrite hasattr_blog_run, F. cbn [negb].
  unfold Blog_objects_create. rewrite (find_None_existsb _ _ F).
  reflexivity.
Qed.

Lemma perform_create_with_blog
    (self : View Post.t) (serializer : Serializer) (u : User.t) (w : World)
    (b : Blog.t) :
  user (request self) = Authenticated u ->
  find (owned_by u) (DB.blogs (db w)) = Some b ->
  PostEditorMixin.perform_create self serializer w
  = save serializer (Some b) w.
Proof.
  intros Hu F. unfold PostEditorMixin.perform_create.
  rewrite Hu. cbn [is_authenticated negb]. unfold bind.
  rewrite hasattr_blog_run, F. cbn [negb].
  unfold getattr_blog. rewrite F. reflexivity.
Qed.

(** C5: for an authenticated user [u] without a blog, [perform_create]
    inserts a new blog row titled ["Blog de " + u.username] and owned by
    [u], under a key no other row has, and then calls
    [serializer.save(blog=<that blog>)]; for an authenticated user who has
    a blog, the hook touches no table and calls
    [serializer.save(blog=<the user's blog>)]. *)
Theorem post_create_provisions_blog
    (self : View Post.t) (serializer : Serializer) (u : User.t) (w : World) :
  user (request self) = Authenticated u ->
  (~ has_blog u (db w) ->
   let b := provisioned_blog u (db w) in
   Blog.title b = String.append "Blog de " (User.username u)
   /\ Blog.user b = u
   /\ (forall x, In x (DB.blogs (db w)) -> Blog.pk x <> Blog.pk b)
   /\ PostEditorMixin.perform_create self serializer w
      = save serializer (Some b)
          (mkWorld (DB.mk (DB.blogs (db w) ++ [b]) (DB.posts (db w)))
                   (calls w)))
  /\ (has_blog u (db w) ->
      exists b : Blog.t,
        In b (DB.blogs (db w))
        /\ owned_by u b = true
        /\ PostEditorMixin.perform_create self serializer w
           = save serializer (Some b) w).
Proof.
  intros Hu. split.
  - intros Hnone b.
    assert (F : find (owned_by u) (DB.blogs (db w)) = None).
    { destruct (find (owned_by u) (DB.blogs (db w))) as [b' | ] eqn:F;
        [ | reflexivity ].
      exfalso. apply Hnone. apply has_blog_find. exists b'. exact F. }
    split; [ reflexivity | ]. split; [ reflexivity | ]. split.
    + intros x Hin. apply next_pk_above in Hin. subst b.
      unfold provisioned_blog. cbn [Blog.pk]. lia.
    + apply perform_create_without_blog; assumption.
  - intros Hsome. apply has_blog_find in Hsome. destruct Hsome as (b & F).
    exists b. destruct (find_some _ _ F) as [Hin Hown].
    split; [ exact Hin | ]. split; [ exact Hown | ].
    apply (perform_create_with_blog self serializer u w b Hu F).
Qed.

Lemma perform_create_is_save
    (self : View Post.t) (u : User.t) (w : World) :
  user (request self) = Authenticated u ->
  exists (b : Blog.t) (w1 : World),
    owned_by u b = true
    /\ In b (DB.blogs (db w1))
    /\ DB.posts (db w1) = DB.posts (db w)
    /\ calls w1 = calls w
    /\ forall serializer : Serializer,
        PostEditorMixin.perform_create self serializer w
        = save serializer (Some b) w1.
Proof.
  intros Hu.
  destruct (find (owned_by u) (DB.blogs (db w))) as [b | ] eqn:F.
  - exists b, w. destruct (find_some _ _ F) as [Hin Hown].
    repeat (split; [ assumption || reflexivity | ]).
    intros serializer. exact (perform_create_with_blog _ _ _ _ _ Hu F).
  - exists (provisioned_blog u (db w)).
    exists (mkWorld (DB.mk (DB.blogs (db w) ++ [provisioned_blog u (db w)])
                           (DB.posts (db w)))
                    (calls w)).
    split; [ apply User_eqb_refl | ].
    split; [ simpl; apply in_or_app; right; left; reflexivity | ].
    split; [ reflexivity | ]. split; [ reflexivity | ].
    intros serializer. exact (perform_create_without_blog _ _ _ _ Hu F).
Qed.

Lemma PostSerializer_keyword_overrides_payload
    (title : string) (client_blog : option Blog.t) :
  keyword_overrides_payload (PostSerializer.make title client_blog).
Proof.
  intros b d p. simpl. intros Hin. apply in_app_or in Hin.
  destruct Hin as [Hold | [Hnew | []]].
  - left. exact Hold.
  - right. subst p. reflexivity.
Qed.

(** C9: for an authenticated create there is a blog [b] of the requesting
    user, fixed by the user and the tables alone and present in the blog
    table when the post is saved, such that the hook is
    [serializer.save(blog=b)] for every serializer and records that one
    call.  The post is stored on [b]: with any serializer that attaches
    what it stores to the blog it is told, every post in the table after
    the call was there before or is on [b], a blog of the requester, so no
    post lands on another user's blog; and with the post serializer the
    call returns with exactly one new row, which is on [b], and the
    outcome is the same whatever blog the client named in the payload. *)
Theorem post_create_own_blog
    (self : View Post.t) (u : User.t) (w : World) :
  user (request self) = Authenticated u ->
  exists (b : Blog.t) (w1 : World),
    owned_by u b = true
    /\ In b (DB.blogs (db w1))
    /\ DB.posts (db w1) = DB.posts (db w)
    /\ calls w1 = calls w
    /\ (forall serializer : Serializer,
           PostEditorMixin.perform_create self serializer w
           = save serializer (Some b) w1
           /\ calls (snd (PostEditorMixin.perform_create self serializer w))
              = calls w ++ [SerializerSave (Some b)])
    /\ (forall serializer : Serializer,
           keyword_overrides_payload serializer ->
           forall p : Post.t,
             In p (DB.posts
                     (db (snd (PostEditorMixin.perform_create
                                 self serializer w)))) ->
             In p (DB.posts (db w))
             \/ (Post.blog p = b /\ owned_by u (Post.blog p) = true))
    /\ (forall (title : string) (client_blog : option Blog.t),
           PostEditorMixin.perform_create
             self (PostSerializer.make title client_blog) w
           = (Return tt,
              mkWorld
                (DB.mk (DB.blogs (db w1))
                       (DB.posts (db w)
                        ++ [Post.mk
                              (1 + Z.of_nat (List.length (DB.posts (db w))))
                              title b]))
                (calls w ++ [SerializerSave (Some b)]))).
Proof.
  intros Hu.
  destruct (perform_create_is_save self u w Hu)
    as (b & w1 & Hown & Hin & Hposts & Hcalls & Hrun).
  exists b, w1.
  repeat (split; [ assumption | ]).
  split; [ | split ].
  - intros serializer. split; [ apply Hrun | ].
    rewrite Hrun, save_run. cbn [snd calls]. rewrite Hcalls. reflexivity.
  - intros serializer Hrule p Hp.
    rewrite Hrun, save_run in Hp. cbn [snd db] in Hp.
    apply Hrule in Hp. rewrite Hposts in Hp.
    destruct Hp as [Hold | Hnew]; [ left; exact Hold | right ].
    split; [ exact Hnew | rewrite Hnew; exact Hown ].
  - intros title client_blog. rewrite Hrun.
    unfold save, PostSerializer.make, PostSerializer.save_effect.
    cbn [save_effect]. rewrite Hposts, Hcalls. reflexivity.
Qed.

Lemma dave_has_no_blog : ~ has_blog Sample.dave Sample.tables.
Proof.
  intros (b & Hin & Hown). simpl in Hin.
  destruct Hin as [E | [E | []]]; subst b; discriminate Hown.
Qed.

Lemma alice_has_blog : has_blog Sample.alice Sample.tables.
Proof. exists Sample.blog1. split; [ left | ]; reflexivity. Qed.

Lemma post_create_provisions_blog_witness :
  PostEditorMixin.perform_create
    (Sample.view_of (Authenticated Sample.dave) (Return Sample.post1))
    Sample.mock_serializer Sample.world
  = (Return tt,
     mkWorld
       (DB.mk [Sample.blog1; Sample.blog2;
               Blog.mk 3 "Blog de dave" "Blog personal" Sample.dave]
              [Sample.post1; Sample.post2])
       [SerializerSave
          (Some (Blog.mk 3 "Blog de dave" "Blog personal" Sample.dave))])
  /\ exists b : Blog.t,
       In b (DB.blogs Sample.tables)
       /\ owned_by Sample.alice b = true
       /\ PostEditorMixin.perform_create
            (Sample.view_of (Authenticated Sample.alice)
                            (Return Sample.post1))
            Sample.mock_serializer Sample.world
          = save Sample.mock_serializer (Some b) Sample.world.
Proof.
  split.
  - destruct (post_create_provisions_blog
                (Sample.view_of (Authenticated Sample.dave)
                                (Return Sample.post1))
                Sample.mock_serializer Sample.dave Sample.world eq_refl)
      as [Hnew _].
    destruct (Hnew dave_has_no_blog) as (_ & _ & _ & E).
    rewrite E. reflexivity.
  - destruct (post_create_provisions_blog
                (Sample.view_of (Authenticated Sample.alice)
                                (Return Sample.post1))
                Sample.mock_serializer Sample.alice Sample.world eq_refl)
      as [_ Hold].
    exact (Hold alice_has_blog).
Defined.

Lemma post_create_own_blog_witness :
  exists (b : Blog.t) (w1 : World),
    owned_by Sample.alice b = true
    /\ In b (DB.blogs (db w1))
    /\ DB.posts (db w1) = DB.posts Sample.tables
    /\ calls w1 = []
    /\ (forall serializer : Serializer,
           PostEditorMixin.perform_create
             (Sample.view_of (Authenticated Sample.alice)
                             (Return Sample.post1))
             serializer Sample.world
           = save serializer (Some b) w1
           /\ calls (snd (PostEditorMixin.perform_create
                            (Sample.view_of (Authenticated Sample.alice)
                                            (Return Sample.post1))
                            serializer Sample.world))
              = [SerializerSave (Some b)])
    /\ (forall serializer : Serializer,
           keyword_overrides_payload serializer ->
           forall p : Post.t,
             In p (DB.posts
                     (db (snd (PostEditorMixin.perform_create
                                 (Sample.view_of (Authenticated Sample.alice)
                                                 (Return Sample.post1))
                                 serializer Sample.world)))) ->
             In p (DB.posts Sample.tables)
             \/ (Post.blog p = b
                 /\ owned_by Sample.alice (Post.blog p) = true))
    /\ (forall (title : string) (client_blog : option Blog.t),
           PostEditorMixin.perform_create
             (Sample.view_of (Authenticated Sample.alice)
                             (Return Sample.post1))
             (PostSerializer.make title client_blog) Sample.world
           = (Return tt,
              mkWorld
                (DB.mk (DB.blogs (db w1))
                       (DB.posts Sample.tables ++ [Post.mk 3 title b]))
                [SerializerSave (Some b)])).
Proof.
  exact (post_create_own_blog
           (Sample.view_of (Authenticated Sample.alice) (Return Sample.post1))
           Sample.alice Sample.world eq_refl).
Defined.

(** Alice posts while naming carol's blog in the payload: the one new row
    is on alice's blog, and carol's blog gets nothing. *)
Example client_cannot_pick_blog :
  PostEditorMixin.perform_create
    (Sample.view_of (Authenticated Sample.alice) (Return Sample.post1))
    (PostSerializer.make "P3" (Some Sample.blog2)) Sample.world
  = (Return tt,
     mkWorld
       (DB.mk [Sample.blog1; Sample.blog2]
              [Sample.post1; Sample.post2; Post.mk 3 "P3" Sample.blog1])
       [SerializerSave (Some Sample.blog1)])
  /\ PostEditorMixin.perform_create
       (Sample.view_of (Authenticated Sample.alice) (Return Sample.post1))
       (PostSerializer.make "P3" (Some Sample.blog2)) Sample.world
     = PostEditorMixin.perform_create
         (Sample.view_of (Authenticated Sample.alice) (Return Sample.post1))
         (PostSerializer.make "P3" None) Sample.world.
Proof. split; reflexivity. Qed.

(** A serializer that would put the payload's blog before the keyword
    does not follow the rule of [save]; the rule is what keeps a post off
    another user's blog. *)
Lemma payload_first_breaks_rule :
  ~ keyword_overrides_payload
      (mkSerializer
         (fun _ d =>
            (Return tt,
             DB.mk (DB.blogs d)
                   (DB.posts d ++ [Post.mk 3 "P3" Sample.blog2])))).
Proof.
  intros Hrule.
  destruct (Hrule Sample.blog1 (DB.mk [] []) (Post.mk 3 "P3" Sample.blog2))
    as [[] | Hblog].
  - simpl. left. reflexivity.
  - discriminate Hblog.
Qed.

(** A client that names carol's blog in the payload still gets the post
    filed under the requester's own blog: alice's post lands on [blog1],
    and dave's on the blog made for him. *)
Example client_blog_is_overridden :
  PostEditorMixin.perform_create
    (Sample.view_of (Authenticated Sample.alice) (Return Sample.post1))
    (Sample.post_serializer "P3" (Some Sample.blog2)) Sample.world
  = (Return tt,
     mkWorld
       (DB.mk [Sample.blog1; Sample.blog2]
              [Sample.post1; Sample.post2; Post.mk 3 "P3" Sample.blog1])
       [SerializerSave (Some Sample.blog1)])
  /\ PostEditorMixin.perform_create
       (Sample.view_of (Authenticated Sample.dave) (Return Sample.post1))
       (Sample.post_serializer "P3" (Some Sample.blog2)) Sample.world
     = (Return tt,
        mkWorld
          (DB.mk [Sample.blog1; Sample.blog2;
                  Blog.mk 3 "Blog de dave" "Blog personal" Sample.dave]
                 [Sample.post1; Sample.post2;
                  Post.mk 3 "P3"
                    (Blog.mk 3 "Blog de dave" "Blog personal" Sample.dave)])
          [SerializerSave
             (Some (Blog.mk 3 "Blog de dave" "Blog personal" Sample.dave))]).
Proof. split; reflexivity. Qed.

(** * Further properties of the hooks *)

(** ** Querysets: no exception, no widening, isolation *)

Lemma admin_get_queryset_run
    (base : Request -> QuerySet.t) (request : Request) :
  PostOwnerQuerysetAdminMixin.get_queryset base request
  = Return (match user request with
            | AnonymousUser => []
            | Authenticated u =>
                if User.is_superuser u then base request
                else filter (fun p => User.eqb (Blog.user (Post.blog p)) u)
                            (base request)
            end).
Proof.
  unfold PostOwnerQuerysetAdminMixin.get_queryset.
  destruct (user request) as [ | u]; simpl; [ reflexivity | ].
  destruct (User.is_superuser u); reflexivity.
Qed.

Lemma viewset_get_queryset_run
    (base : View Post.t -> QuerySet.t) (self : View Post.t) :
  PostOwnerQuerysetViewSetMixin.get_queryset base self
  = Return (match user (request self) with
            | AnonymousUser => base self
            | Authenticated u =>
                if User.is_superuser u then base self
                else filter (fun p => User.eqb (Blog.user (Post.blog p)) u)
                            (base self)
            end).
Proof.
  unfold PostOwnerQuerysetViewSetMixin.get_queryset.
  destruct (user (request self)) as [ | u]; simpl; [ reflexivity | ].
  destruct (User.is_superuser u); reflexivity.
Qed.

(** X1: whoever asks, both [get_queryset] hooks return a queryset and never
    raise: the lookup by user is reached only with a [User] row.  The rows
    returned are rows of the parent's queryset, never more of them. *)
Theorem get_queryset_returns_parent_rows
    (admin_super : Request -> QuerySet.t)
    (viewset_super : View Post.t -> QuerySet.t) (self : View Post.t) :
  exists qa qv : QuerySet.t,
    PostOwnerQuerysetAdminMixin.get_queryset admin_super (request self)
    = Return qa
    /\ PostOwnerQuerysetViewSetMixin.get_queryset viewset_super self
       = Return qv
    /\ incl qa (admin_super (request self))
    /\ incl qv (viewset_super self)
    /\ (List.length qa <= List.length (admin_super (request self)))%nat
    /\ (List.length qv <= List.length (viewset_super self))%nat.
Proof.
  rewrite admin_get_queryset_run, viewset_get_queryset_run.
  eexists; eexists. split; [ reflexivity | ]. split; [ reflexivity | ].
  destruct (user (request self)) as [ | u].
  - repeat split.
    + intros p [].
    + apply incl_refl.
    + simpl. lia.
    + lia.
  - destruct (User.is_superuser u).
    + repeat split; try apply incl_refl; lia.
    + repeat split; try apply incl_filter; apply filter_length_le.
Qed.

(** X2: over one parent queryset the admin hook never shows a post that the
    viewset hook hides, and for an authenticated user the two return the
    same rows. *)
Theorem admin_queryset_within_viewset (qs : QuerySet.t) (self : View Post.t) :
  exists qa qv : QuerySet.t,
    PostOwnerQuerysetAdminMixin.get_queryset (fun _ => qs) (request self)
    = Return qa
    /\ PostOwnerQuerysetViewSetMixin.get_queryset (fun _ => qs) self
       = Return qv
    /\ incl qa qv
    /\ (is_authenticated (user (request self)) = true -> qa = qv).
Proof.
  rewrite admin_get_queryset_run, viewset_get_queryset_run.
  eexists; eexists. split; [ reflexivity | ]. split; [ reflexivity | ].
  destruct (user (request self)) as [ | u]; simpl.
  - split; [ intros p [] | discriminate ].
  - split; [ apply incl_refl | reflexivity ].
Qed.

(** X3: two users who are not superusers and have different keys never get
    a post in common, whatever the parents' querysets are; this holds for
    any pairing of the admin and viewset hooks. *)
Theorem owner_querysets_disjoint
    (admin_super : Request -> QuerySet.t)
    (viewset_super : View Post.t -> QuerySet.t)
    (self1 self2 : View Post.t) (u1 u2 : User.t) (q1 q2 : QuerySet.t) :
  user (request self1) = Authenticated u1 ->
  user (request self2) = Authenticated u2 ->
  User.is_superuser u1 = false ->
  User.is_superuser u2 = false ->
  User.pk u1 <> User.pk u2 ->
  (PostOwnerQuerysetViewSetMixin.get_queryset viewset_super self1 = Return q1
   \/ PostOwnerQuerysetAdminMixin.get_queryset admin_super (request self1)
      = Return q1) ->
  (PostOwnerQuerysetViewSetMixin.get_queryset viewset_super self2 = Return q2
   \/ PostOwnerQuerysetAdminMixin.get_queryset admin_super (request self2)
      = Return q2) ->
  forall p : Post.t, In p q1 -> ~ In p q2.
Proof.
  intros H1 H2 S1 S2 Hne R1 R2 p In1 In2.
  assert (O1 : post_owner_is u1 p).
  { destruct R1 as [R1 | R1];
      [ rewrite viewset_get_queryset_run in R1
      | rewrite admin_get_queryset_run in R1 ];
      rewrite H1, S1 in R1; injection R1 as R1; subst q1;
      apply filter_blog__user_In in In1; tauto. }
  assert (O2 : post_owner_is u2 p).
  { destruct R2 as [R2 | R2];
      [ rewrite viewset_get_queryset_run in R2
      | rewrite admin_get_queryset_run in R2 ];
      rewrite H2, S2 in R2; injection R2 as R2; subst q2;
      apply filter_blog__user_In in In2; tauto. }
  unfold post_owner_is in O1, O2. congruence.
Qed.

Lemma owner_querysets_disjoint_witness :
  In Sample.post1 [Sample.post1] /\ ~ In Sample.post1 [Sample.post2].
Proof.
  assert (Hin : In Sample.post1 [Sample.post1]) by (left; reflexivity).
  split; [ exact Hin | ].
  apply (owner_querysets_disjoint
           (fun _ => Sample.all_posts) (fun _ => Sample.all_posts)
           (Sample.view_of (Authenticated Sample.alice) (Return Sample.post1))
           (Sample.view_of (Authenticated Sample.carol) (Return Sample.post1))
           Sample.alice Sample.carol [Sample.post1] [Sample.post2]
           eq_refl eq_refl eq_refl eq_refl).
  - discriminate.
  - left. reflexivity.
  - right. reflexivity.
  - exact Hin.
Defined.

Lemma admin_queryset_within_viewset_witness :
  exists qa qv : QuerySet.t,
    PostOwnerQuerysetAdminMixin.get_queryset
      (fun _ => Sample.all_posts) (mkRequest (Authenticated Sample.alice))
    = Return qa
    /\ PostOwnerQuerysetViewSetMixin.get_queryset
         (fun _ => Sample.all_posts)
         (Sample.view_of (Authenticated Sample.alice) (Return Sample.post1))
       = Return qv
    /\ incl qa qv
    /\ qa = qv.
Proof.
  destruct (admin_queryset_within_viewset Sample.all_posts
              (Sample.view_of (Authenticated Sample.alice)
                              (Return Sample.post1)))
    as (qa & qv & Ha & Hv & Hincl & Heq).
  exists qa, qv. repeat split; try assumption.
  apply Heq. reflexivity.
Defined.

(** ** Read-only fields: stacking, duplicates, the test double *)

Section ReadonlyFieldsMore.
Variable T : Type.
Variable super_get_readonly_fields : Request -> option T -> list string.

Local Abbreviation get_readonly_fields :=
  (PostReadonlyFieldsMixin.get_readonly_fields T super_get_readonly_fields).

(** X4: the mixin may be stacked.  Placed over itself it answers as it does
    alone, so ["blog"] is not appended a second time. *)
Theorem readonly_fields_stacked (request : Request) (obj : option T) :
  PostReadonlyFieldsMixin.get_readonly_fields T get_readonly_fields
    request obj
  = get_readonly_fields request obj.
Proof.
  unfold PostReadonlyFieldsMixin.get_readonly_fields at 1.
  destruct (get_readonly_fields_cases T super_get_readonly_fields request obj)
    as [(Hs & Ho & Hn & E) | (Hc & E)].
  - assert (C : PostReadonlyFieldsMixin.contains
                  "blog" (get_readonly_fields request obj) = true).
    { apply contains_In. rewrite E. apply in_or_app. right. left.
      reflexivity. }
    rewrite C, andb_false_r. reflexivity.
  - rewrite E.
    destruct Hc as [Hc | [Hc | Hc]].
    + rewrite Hc. reflexivity.
    + subst obj. simpl. rewrite andb_false_r. reflexivity.
    + apply contains_In in Hc. rewrite Hc, andb_false_r. reflexivity.
Qed.

(** X5: when the parent's list has no duplicate field, neither has the
    returned list. *)
Theorem readonly_fields_NoDup (request : Request) (obj : option T) :
  NoDup (super_get_readonly_fields request obj) ->
  NoDup (get_readonly_fields request obj).
Proof.
  intros Hnd.
  destruct (get_readonly_fields_cases T super_get_readonly_fields request obj)
    as [(Hs & Ho & Hn & E) | (Hc & E)]; rewrite E; [ | exact Hnd ].
  apply NoDup_app; [ exact Hnd | repeat constructor; intros [] | ].
  intros field Hin [Heq | []]. subst field. exact (Hn Hin).
Qed.

(** X6: over a parent that does not list ["blog"], as the admin double with
    the empty list used by the tests, ["blog"] is in the returned list
    exactly when the user is not a superuser and the object exists. *)
Theorem readonly_fields_blog_iff (request : Request) (obj : option T) :
  ~ In "blog"%string (super_get_readonly_fields request obj) ->
  (In "blog"%string (get_readonly_fields request obj)
   <-> is_superuser (user request) = false /\ obj <> None).
Proof.
  intros Hparent.
  destruct (get_readonly_fields_cases T super_get_readonly_fields request obj)
    as [(Hs & Ho & Hn & E) | (Hc & E)]; rewrite E.
  - split; [ intros _; split; assumption | ].
    intros _. apply in_or_app. right. left. reflexivity.
  - split; [ intros Hin; contradiction | ].
    intros [Hs Ho]. destruct Hc as [Hc | [Hc | Hc]]; congruence || contradiction.
Qed.
End ReadonlyFieldsMore.

Lemma readonly_fields_NoDup_witness :
  NoDup (PostReadonlyFieldsMixin.get_readonly_fields Post.t
           (fun _ _ => ["title"%string])
           (mkRequest (Authenticated Sample.alice)) (Some Sample.post1)).
Proof.
  apply (readonly_fields_NoDup Post.t (fun _ _ => ["title"%string])
           (mkRequest (Authenticated Sample.alice)) (Some Sample.post1)).
  repeat constructor. intros [].
Defined.

Lemma readonly_fields_blog_iff_witness :
  In "blog"%string
     (PostReadonlyFieldsMixin.get_readonly_fields Post.t (fun _ _ => [])
        (mkRequest (Authenticated Sample.alice)) (Some Sample.post1))
  <-> is_superuser (user (mkRequest (Authenticated Sample.alice))) = false
      /\ Some Sample.post1 <> None.
Proof.
  apply (readonly_fields_blog_iff Post.t (fun _ _ => [])
           (mkRequest (Authenticated Sample.alice)) (Some Sample.post1)).
  intros [].
Defined.

(** ** Permissions of the blog viewset *)

(** X7: [BlogOwnerPermissionMixin.get_permissions] returns one permission
    instance, the one [PublicReadOnlyMixin.get_permissions] returns for the
    same action: it is an [AllowAny] instance exactly for the actions
    ["list"] and ["retrieve"], and an [IsAuthenticated] instance
    otherwise. *)
Theorem blog_permissions_by_action (self : View Blog.t) :
  BlogOwnerPermissionMixin.get_permissions self
  = PublicReadOnlyMixin.get_permissions self
  /\ (BlogOwnerPermissionMixin.get_permissions self
      = [permissions.instance_of permissions.AllowAny]
      <-> action self = Some "list"%string
          \/ action self = Some "retrieve"%string)
  /\ (BlogOwnerPermissionMixin.get_permissions self
      = [permissions.instance_of permissions.IsAuthenticated]
      <-> action self <> Some "list"%string
          /\ action self <> Some "retrieve"%string).
Proof.
  split; [ reflexivity | ].
  unfold BlogOwnerPermissionMixin.get_permissions, action_is.
  destruct (action self) as [a | ].
  - destruct (String.eqb_spec a "list") as [El | Nl];
      [ subst a; simpl; intuition congruence | ].
    destruct (String.eqb_spec a "retrieve") as [Er | Nr];
      [ subst a; simpl; intuition congruence | ].
    simpl. intuition congruence.
  - simpl. intuition congruence.
Qed.

(** ** A target that cannot be fetched *)

(** X8: when [self.get_object()] raises, the blog's [perform_update]
    raises the same exception for every user, a superuser included, and
    the post editor's [perform_update] does so for every authenticated
    user; neither calls [serializer.save] nor touches a table. *)
Theorem perform_update_propagates_lookup_error
    (can_edit_post : RequestUser -> Post.t -> bool)
    (blog_view : View Blog.t) (post_view : View Post.t)
    (serializer : Serializer) (e : Exception) (w : World) :
  (get_object blog_view = Raise e ->
   BlogOwnerPermissionMixin.perform_update blog_view serializer w
   = (Raise e, w))
  /\ (get_object post_view = Raise e ->
      is_authenticated (user (request post_view)) = true ->
      PostEditorMixin.perform_update can_edit_post post_view serializer w
      = (Raise e, w)).
Proof.
  split.
  - intros Ho. unfold BlogOwnerPermissionMixin.perform_update, bind, lift.
    rewrite Ho. reflexivity.
  - intros Ho Ha. unfold PostEditorMixin.perform_update, bind, lift.
    rewrite Ha, Ho. reflexivity.
Qed.

Lemma perform_update_propagates_lookup_error_witness :
  BlogOwnerPermissionMixin.perform_update
    (Sample.view_of (Authenticated Sample.root) (Raise Http404))
    Sample.mock_serializer Sample.world
  = (Raise Http404, Sample.world)
  /\ PostEditorMixin.perform_update Sample.owner_or_superuser
       (Sample.view_of (Authenticated Sample.alice) (Raise Http404))
       Sample.mock_serializer Sample.world
     = (Raise Http404, Sample.world).
Proof.
  destruct (perform_update_propagates_lookup_error Sample.owner_or_superuser
              (Sample.view_of (Authenticated Sample.root) (Raise Http404))
              (Sample.view_of (Authenticated Sample.alice) (Raise Http404))
              Sample.mock_serializer Http404 Sample.world)
    as [Hblog Hpost].
  split.
  - apply Hblog. reflexivity.
  - apply Hpost; reflexivity.
Defined.

Lemma blog_permissions_by_action_witness :
  BlogOwnerPermissionMixin.get_permissions
    (mkView (mkRequest AnonymousUser) (Some "list"%string)
            (Return Sample.blog1))
  = [permissions.instance_of permissions.AllowAny]
  /\ BlogOwnerPermissionMixin.get_permissions
       (mkView (mkRequest AnonymousUser) (Some "destroy"%string)
               (Return Sample.blog1))
     = [permissions.instance_of permissions.IsAuthenticated].
Proof.
  split.
  - destruct (blog_permissions_by_action
                (mkView (mkRequest AnonymousUser) (Some "list"%string)
                        (Return Sample.blog1))) as (_ & [_ Hallow] & _).
    apply Hallow. left. reflexivity.
  - destruct (blog_permissions_by_action
                (mkView (mkRequest AnonymousUser) (Some "destroy"%string)
                        (Return Sample.blog1))) as (_ & _ & [_ Hauth]).
    apply Hauth. split; discriminate.
Defined.

(** ** Blog choices in the admin form *)

Section BlogChoices.
Variable Kwargs : Type.
Variable super_formfield_for_foreignkey :
  DbField.t -> Request -> Kwargs -> option FormField.t.

Local Abbreviation formfield_for_foreignkey :=
  (LimitBlogChoicesToOwnerMixin.formfield_for_foreignkey
     Kwargs super_formfield_for_foreignkey).

(** X9: for a logged-in user who is not a superuser, the form field of the
    [blog] foreign key comes back with its label kept and its queryset cut
    down to the blogs of that user, in the parent's order: every choice is
    a choice of the parent's field owned by the user, and every blog of
    the user among the parent's choices stays. *)
Theorem blog_choices_limited_to_owner
    (db_field : DbField.t) (request : Request) (kwargs : Kwargs)
    (u : User.t) (ff : FormField.t) (qs : list Blog.t) :
  DbField.name db_field = "blog"%string ->
  user request = Authenticated u ->
  User.is_superuser u = false ->
  super_formfield_for_foreignkey db_field request kwargs = Some ff ->
  FormField.queryset ff = Some qs ->
  exists owned : list Blog.t,
    formfield_for_foreignkey db_field request kwargs
    = Return (Some (FormField.mk (FormField.label ff) (Some owned)))
    /\ owned = filter (owned_by u) qs
    /\ (forall b : Blog.t,
           In b owned <->
           In b qs /\ User.pk (Blog.user b) = User.pk u).
Proof.
  intros Hn Hu Hs Hff Hqs.
  exists (filter (owned_by u) qs).
  unfold LimitBlogChoicesToOwnerMixin.formfield_for_foreignkey.
  rewrite Hn, Hu, Hff, Hqs. simpl. rewrite Hs. simpl.
  split; [ reflexivity | ]. split; [ reflexivity | ].
  intros b. rewrite filter_In. unfold owned_by. rewrite User_eqb_eq.
  reflexivity.
Qed.

(** X10: the hook hands back the parent's form field untouched when the
    user is a superuser, when the model field is not named [blog], when
    the parent made no form field, and when the form field has no
    queryset; in none of these cases does it raise. *)
Theorem blog_choices_untouched
    (db_field : DbField.t) (request : Request) (kwargs : Kwargs) :
  let formfield := super_formfield_for_foreignkey db_field request kwargs in
  is_superuser (user request) = true
  \/ DbField.name db_field <> "blog"%string
  \/ formfield = None
  \/ (exists ff, formfield = Some ff /\ FormField.queryset ff = None) ->
  formfield_for_foreignkey db_field request kwargs = Return formfield.
Proof.
  intros formfield H.
  unfold LimitBlogChoicesToOwnerMixin.formfield_for_foreignkey.
  fold formfield.
  destruct H as [Hs | [Hn | [Hnone | (ff & Hff & Hq)]]].
  - rewrite Hs, andb_false_r. reflexivity.
  - apply String.eqb_neq in Hn. rewrite Hn. reflexivity.
  - rewrite Hnone.
    destruct (String.eqb (DbField.name db_field) "blog"
              && negb (is_superuser (user request))); reflexivity.
  - rewrite Hff, Hq.
    destruct (String.eqb (DbField.name db_field) "blog"
              && negb (is_superuser (user request))); reflexivity.
Qed.
End BlogChoices.

Lemma blog_choices_limited_to_owner_witness :
  exists owned : list Blog.t,
    LimitBlogChoicesToOwnerMixin.formfield_for_foreignkey unit
      (fun _ _ _ =>
         Some (FormField.mk "Blog" (Some [Sample.blog1; Sample.blog2])))
      (DbField.mk "blog") (mkRequest (Authenticated Sample.carol)) tt
    = Return (Some (FormField.mk "Blog" (Some owned)))
    /\ owned = [Sample.blog2]
    /\ (forall b : Blog.t,
           In b owned <->
           In b [Sample.blog1; Sample.blog2]
           /\ User.pk (Blog.user b) = User.pk Sample.carol).
Proof.
  exact (blog_choices_limited_to_owner unit
           (fun _ _ _ =>
              Some (FormField.mk "Blog" (Some [Sample.blog1; Sample.blog2])))
           (DbField.mk "blog") (mkRequest (Authenticated Sample.carol)) tt
           Sample.carol
           (FormField.mk "Blog" (Some [Sample.blog1; Sample.blog2]))
           [Sample.blog1; Sample.blog2]
           eq_refl eq_refl eq_refl eq_refl eq_refl).
Defined.

Lemma blog_choices_untouched_witness :
  LimitBlogChoicesToOwnerMixin.formfield_for_foreignkey unit
    (fun _ _ _ =>
       Some (FormField.mk "Blog" (Some [Sample.blog1; Sample.blog2])))
    (DbField.mk "blog") (mkRequest (Authenticated Sample.root)) tt
  = Return (Some (FormField.mk "Blog" (Some [Sample.blog1; Sample.blog2])))
  /\ LimitBlogChoicesToOwnerMixin.formfield_for_foreignkey unit
       (fun _ _ _ => None)
       (DbField.mk "blog") (mkRequest (Authenticated Sample.carol)) tt
     = Return None
  /\ LimitBlogChoicesToOwnerMixin.formfield_for_foreignkey unit
       (fun _ _ _ => Some (FormField.mk "Author" None))
       (DbField.mk "author") (mkRequest AnonymousUser) tt
     = Return (Some (FormField.mk "Author" None)).
Proof.
  split; [ | split ].
  - apply (blog_choices_untouched unit
             (fun _ _ _ =>
                Some (FormField.mk "Blog"
                        (Some [Sample.blog1; Sample.blog2])))
             (DbField.mk "blog") (mkRequest (Authenticated Sample.root)) tt).
    left. reflexivity.
  - apply (blog_choices_untouched unit (fun _ _ _ => None)
             (DbField.mk "blog") (mkRequest (Authenticated Sample.carol)) tt).
    right; right; left. reflexivity.
  - apply (blog_choices_untouched unit
             (fun _ _ _ => Some (FormField.mk "Author" None))
             (DbField.mk "author") (mkRequest AnonymousUser) tt).
    right; left. discriminate.
Defined.

(** ** Saving a post from the admin *)

Section SaveModel.
Variable can_add_post : RequestUser -> Blog.t -> bool.
Variable can_edit_post : RequestUser -> Blog.t -> bool.
Variable super_save_model : Request -> Post.t -> Form.t -> bool -> M unit.

Local Abbreviation save_model :=
  (PostEditorAdmin.save_model can_add_post can_edit_post super_save_model).

(** X11: [save_model] is the parent's [save_model] for a superuser,
    whatever the two predicates say.  For another user adding a post, it
    raises [PermissionDenied] before the parent runs, leaving tables and
    trace as they were, when [can_add_post(user, obj.blog)] is false, and
    is the parent's [save_model] when it is true; [can_edit_post] plays no
    part in adding. *)
Theorem save_model_add_gate
    (request : Request) (obj : Post.t) (form : Form.t) (w : World) :
  (is_superuser (user request) = true ->
   forall change : bool,
     save_model request obj form change w
     = super_save_model request obj form change w)
  /\ (is_superuser (user request) = false ->
      can_add_post (user request) (Post.blog obj) = false ->
      save_model request obj form false w
      = (Raise (DjangoPermissionDenied
                  "You are not allowed to add this post."), w))
  /\ (is_superuser (user request) = false ->
      can_add_post (user request) (Post.blog obj) = true ->
      save_model request obj form false w
      = super_save_model request obj form false w).
Proof.
  unfold PostEditorAdmin.save_model, bind, raise, ret.
  split; [ | split ].
  - intros Hs change. rewrite Hs. reflexivity.
  - intros Hs Hadd. rewrite Hs, Hadd. reflexivity.
  - intros Hs Hadd. rewrite Hs, Hadd. reflexivity.
Qed.

(** X12: for a user who is not a superuser changing an existing post,
    [save_model] asks [can_edit_post(user, obj.blog)] only when ["blog"]
    is among the form's changed fields.  A change that leaves the blog
    alone, or a form without [changed_data], always goes to the parent's
    [save_model]; a change of blog is refused with [PermissionDenied],
    nothing touched, exactly when the predicate is false on the new
    blog. *)
Theorem save_model_change_gate
    (request : Request) (obj : Post.t) (form : Form.t) (w : World) :
  is_superuser (user request) = false ->
  (~ In "blog"%string (getattr_changed_data form) ->
   save_model request obj form true w
   = super_save_model request obj form true w)
  /\ (In "blog"%string (getattr_changed_data form) ->
      can_edit_post (user request) (Post.blog obj) = false ->
      save_model request obj form true w
      = (Raise (DjangoPermissionDenied
                  "You are not allowed to move the post to a blog that is not yours."),
         w))
  /\ (In "blog"%string (getattr_changed_data form) ->
      can_edit_post (user request) (Post.blog obj) = true ->
      save_model request obj form true w
      = super_save_model request obj form true w).
Proof.
  intros Hs. unfold PostEditorAdmin.save_model, bind, raise, ret.
  rewrite Hs. cbn [negb].
  split; [ | split ].
  - intros Hn. apply contains_not_In in Hn. rewrite Hn. reflexivity.
  - intros Hin He. apply contains_In in Hin. rewrite Hin, He. reflexivity.
  - intros Hin He. apply contains_In in Hin. rewrite Hin, He. reflexivity.
Qed.
End SaveModel.

Lemma save_model_add_gate_witness :
  PostEditorAdmin.save_model
    SampleAdmin.owns_blog SampleAdmin.owns_blog SampleAdmin.super_save_model
    (SampleAdmin.request_of SampleAdmin.root) SampleAdmin.draft
    (Form.mk None) false SampleAdmin.world
  = (Return tt,
     mkWorld (DB.mk [SampleAdmin.blog1; SampleAdmin.blog2]
                    [SampleAdmin.draft]) [])
  /\ PostEditorAdmin.save_model
       SampleAdmin.owns_blog SampleAdmin.owns_blog
       SampleAdmin.super_save_model
       (SampleAdmin.request_of SampleAdmin.carol) SampleAdmin.draft
       (Form.mk None) false SampleAdmin.world
     = (Raise (DjangoPermissionDenied
                 "You are not allowed to add this post."), SampleAdmin.world)
  /\ PostEditorAdmin.save_model
       SampleAdmin.owns_blog SampleAdmin.owns_blog
       SampleAdmin.super_save_model
       (SampleAdmin.request_of SampleAdmin.alice) SampleAdmin.draft
       (Form.mk None) false SampleAdmin.world
     = (Return tt,
        mkWorld (DB.mk [SampleAdmin.blog1; SampleAdmin.blog2]
                       [SampleAdmin.draft]) []).
Proof.
  split; [ | split ].
  - destruct (save_model_add_gate
                SampleAdmin.owns_blog SampleAdmin.owns_blog
                SampleAdmin.super_save_model
                (SampleAdmin.request_of SampleAdmin.root) SampleAdmin.draft
                (Form.mk None) SampleAdmin.world) as (Hroot & _ & _).
    rewrite (Hroot eq_refl false). reflexivity.
  - destruct (save_model_add_gate
                SampleAdmin.owns_blog SampleAdmin.owns_blog
                SampleAdmin.super_save_model
                (SampleAdmin.request_of SampleAdmin.carol) SampleAdmin.draft
                (Form.mk None) SampleAdmin.world) as (_ & Hdenied & _).
    apply Hdenied; reflexivity.
  - destruct (save_model_add_gate
                SampleAdmin.owns_blog SampleAdmin.owns_blog
                SampleAdmin.super_save_model
                (SampleAdmin.request_of SampleAdmin.alice) SampleAdmin.draft
                (Form.mk None) SampleAdmin.world) as (_ & _ & Hallowed).
    rewrite Hallowed; reflexivity.
Defined.

Lemma save_model_change_gate_witness :
  PostEditorAdmin.save_model
    SampleAdmin.owns_blog SampleAdmin.owns_blog SampleAdmin.super_save_model
    (SampleAdmin.request_of SampleAdmin.carol) SampleAdmin.draft
    (Form.mk (Some ["title"%string])) true SampleAdmin.world
  = (Return tt,
     mkWorld (DB.mk [SampleAdmin.blog1; SampleAdmin.blog2]
                    [SampleAdmin.draft]) [])
  /\ PostEditorAdmin.save_model
       SampleAdmin.owns_blog SampleAdmin.owns_blog
       SampleAdmin.super_save_model
       (SampleAdmin.request_of SampleAdmin.carol) SampleAdmin.draft
       (Form.mk (Some ["title"%string; "blog"%string])) true
       SampleAdmin.world
     = (Raise (DjangoPermissionDenied
                 "You are not allowed to move the post to a blog that is not yours."),
        SampleAdmin.world)
  /\ PostEditorAdmin.save_model
       SampleAdmin.owns_blog SampleAdmin.owns_blog
       SampleAdmin.super_save_model
       (SampleAdmin.request_of SampleAdmin.alice) SampleAdmin.draft
       (Form.mk (Some ["blog"%string])) true SampleAdmin.world
     = (Return tt,
        mkWorld (DB.mk [SampleAdmin.blog1; SampleAdmin.blog2]
                       [SampleAdmin.draft]) []).
Proof.
  split; [ | split ].
  - destruct (save_model_change_gate
                SampleAdmin.owns_blog SampleAdmin.owns_blog
                SampleAdmin.super_save_model
                (SampleAdmin.request_of SampleAdmin.carol) SampleAdmin.draft
                (Form.mk (Some ["title"%string])) SampleAdmin.world eq_refl)
      as (Hkeep & _ & _).
    rewrite Hkeep; [ reflexivity | ].
    simpl. intros [H | []]. discriminate H.
  - destruct (save_model_change_gate
                SampleAdmin.owns_blog SampleAdmin.owns_blog
                SampleAdmin.super_save_model
                (SampleAdmin.request_of SampleAdmin.carol) SampleAdmin.draft
                (Form.mk (Some ["title"%string; "blog"%string]))
                SampleAdmin.world eq_refl)
      as (_ & Hdenied & _).
    apply Hdenied; [ simpl; right; left | ]; reflexivity.
  - destruct (save_model_change_gate
                SampleAdmin.owns_blog SampleAdmin.owns_blog
                SampleAdmin.super_save_model
                (SampleAdmin.request_of SampleAdmin.alice) SampleAdmin.draft
                (Form.mk (Some ["blog"%string])) SampleAdmin.world eq_refl)
      as (_ & _ & Hallowed).
    rewrite Hallowed; [ reflexivity | simpl; left | ]; reflexivity.
Defined.

(** ** The blog table under post creation *)

Lemma find_None_not_owner (u : User.t) (bs : list Blog.t) :
  find (owned_by u) bs = None ->
  ~ In (User.pk u) (map (fun b => User.pk (Blog.user b)) bs).
Proof.
  intros F Hin. apply in_map_iff in Hin. destruct Hin as (b & Hpk & Hin).
  pose proof (find_none _ _ F b Hin) as Hown.
  unfold owned_by in Hown.
  assert (Heq : User.eqb (Blog.user b) u = true)
    by (apply User_eqb_eq; exact Hpk).
  congruence.
Qed.

Lemma next_pk_not_in (bs : list Blog.t) :
  ~ In (next_pk bs) (map Blog.pk bs).
Proof.
  intros Hin. apply in_map_iff in Hin. destruct Hin as (b & Hpk & Hin).
  apply next_pk_above in Hin. lia.
Qed.

Lemma NoDup_snoc (A : Type) (l : list A) (x : A) :
  NoDup l -> ~ In x l -> NoDup (l ++ [x]).
Proof.
  intros Hnd Hx. apply NoDup_app.
  - exact Hnd.
  - constructor; [ intros [] | constructor ].
  - intros a Ha [E | []]. subst a. exact (Hx Ha).
Qed.

Lemma find_snoc_new (u : User.t) (bs : list Blog.t) (b : Blog.t) :
  find (owned_by u) bs = None ->
  owned_by u b = true ->
  find (owned_by u) (bs ++ [b]) = Some b.
Proof.
  induction bs as [ | x bs IH]; simpl; intros F Hown.
  - rewrite Hown. reflexivity.
  - destruct (owned_by u x); [ discriminate F | exact (IH F Hown) ].
Qed.

(** The blog the hook saves with, and the world in which it calls
    [serializer.save]. *)
Lemma perform_create_run
    (self : View Post.t) (u : User.t) (w : World) :
  user (request self) = Authenticated u ->
  exists (b : Blog.t) (w1 : World),
    (forall serializer : Serializer,
        PostEditorMixin.perform_create self serializer w
        = save serializer (Some b) w1)
    /\ find (owned_by u) (DB.blogs (db w1)) = Some b
    /\ calls w1 = calls w
    /\ DB.posts (db w1) = DB.posts (db w)
    /\ ((find (owned_by u) (DB.blogs (db w)) = Some b /\ w1 = w)
        \/ (find (owned_by u) (DB.blogs (db w)) = None
            /\ b = provisioned_blog u (db w)
            /\ DB.blogs (db w1) = DB.blogs (db w) ++ [b])).
Proof.
  intros Hu.
  destruct (find (owned_by u) (DB.blogs (db w))) as [b | ] eqn:F.
  - exists b, w. split.
    + intros serializer. exact (perform_create_with_blog _ _ _ _ _ Hu F).
    + repeat split; try assumption. left. split; reflexivity.
  - exists (provisioned_blog u (db w)).
    exists (mkWorld (DB.mk (DB.blogs (db w) ++ [provisioned_blog u (db w)])
                           (DB.posts (db w)))
                    (calls w)).
    split.
    + intros serializer. exact (perform_create_without_blog _ _ _ _ Hu F).
    + split; [ apply (find_snoc_new _ _ _ F); apply User_eqb_refl | ].
      repeat split. right. repeat split.
Qed.

(** X13: [perform_create] keeps the blog table well formed.  If no two
    blogs belong to one user and no two share a key before the call, the
    same holds of the table in which [serializer.save] is called; every
    blog that was there is still there, and the requesting user now has
    one. *)
Theorem perform_create_keeps_blog_table
    (self : View Post.t) (u : User.t) (w : World) :
  user (request self) = Authenticated u ->
  one_blog_per_user (db w) ->
  unique_blog_keys (db w) ->
  exists (b : Blog.t) (w1 : World),
    (forall serializer : Serializer,
        PostEditorMixin.perform_create self serializer w
        = save serializer (Some b) w1)
    /\ one_blog_per_user (db w1)
    /\ unique_blog_keys (db w1)
    /\ incl (DB.blogs (db w)) (DB.blogs (db w1))
    /\ has_blog u (db w1).
Proof.
  intros Hu Hone Hkeys.
  destruct (perform_create_run self u w Hu)
    as (b & w1 & Hrun & Hfind & _ & _ & Hcase).
  exists b, w1. split; [ exact Hrun | ].
  assert (Hhas : has_blog u (db w1))
    by (apply has_blog_find; exists b; exact Hfind).
  destruct Hcase as [(_ & Ew) | (F & Eb & Eblogs)].
  - subst w1. repeat split; try assumption. apply incl_refl.
  - unfold one_blog_per_user, unique_blog_keys in *.
    rewrite Eblogs, !map_app. cbn [map].
    split; [ | split; [ | split ] ].
    + apply NoDup_snoc; [ exact Hone | ].
      rewrite Eb. cbn [provisioned_blog Blog.user].
      apply find_None_not_owner. exact F.
    + apply NoDup_snoc; [ exact Hkeys | ].
      rewrite Eb. cbn [provisioned_blog Blog.pk]. apply next_pk_not_in.
    + apply incl_appl. apply incl_refl.
    + exact Hhas.
Qed.

(** X14: the blog is made once.  After a first [perform_create] whose
    serializer leaves the blog table alone, whether its [save] succeeded
    or raised, a second [perform_create] of the same user makes no blog:
    it calls [serializer.save] in the world the first call left, with the
    blog the first call used. *)
Theorem perform_create_provisions_once
    (self : View Post.t) (first second : Serializer)
    (u : User.t) (w : World) :
  user (request self) = Authenticated u ->
  keeps_blogs first ->
  let w' := snd (PostEditorMixin.perform_create self first w) in
  exists b : Blog.t,
    calls w' = calls w ++ [SerializerSave (Some b)]
    /\ PostEditorMixin.perform_create self second w'
       = save second (Some b) w'.
Proof.
  intros Hu Hkeep w'.
  destruct (perform_create_run self u w Hu)
    as (b & w1 & Hrun & Hfind & Hcalls & _ & _).
  exists b. subst w'. rewrite (Hrun first), save_run. cbn [snd calls].
  split; [ rewrite Hcalls; reflexivity | ].
  apply (perform_create_with_blog self second u _ b Hu).
  cbn [db]. rewrite Hkeep. exact Hfind.
Qed.

(** X15: [perform_create] raises nothing of its own for a logged-in user.
    An exception that leaves it was raised by [serializer.save], called
    with a blog of the user; the lookups and the insertion it makes on the
    way cannot fail. *)
Theorem perform_create_fails_only_in_save
    (self : View Post.t) (serializer : Serializer)
    (u : User.t) (w : World) (e : Exception) :
  user (request self) = Authenticated u ->
  fst (PostEditorMixin.perform_create self serializer w) = Raise e ->
  exists (b : Blog.t) (d : DB.t),
    owned_by u b = true
    /\ fst (save_effect serializer (Some b) d) = Raise e.
Proof.
  intros Hu Hraise.
  destruct (perform_create_run self u w Hu)
    as (b & w1 & Hrun & Hfind & _ & _ & _).
  rewrite (Hrun serializer), save_run in Hraise. cbn [fst] in Hraise.
  exists b, (db w1). split; [ | exact Hraise ].
  apply find_some in Hfind. apply Hfind.
Qed.

Lemma sample_tables_well_formed :
  one_blog_per_user Sample.tables /\ unique_blog_keys Sample.tables.
Proof.
  split; repeat constructor; simpl; intuition discriminate.
Qed.

Lemma post_serializer_keeps_blogs (title : string) (client : option Blog.t) :
  keeps_blogs (Sample.post_serializer title client).
Proof.
  intros blog d. simpl.
  destruct blog as [b | ]; [ reflexivity | ].
  destruct client; reflexivity.
Qed.

Lemma perform_create_keeps_blog_table_witness :
  exists (b : Blog.t) (w1 : World),
    (forall serializer : Serializer,
        PostEditorMixin.perform_create
          (Sample.view_of (Authenticated Sample.dave) (Return Sample.post1))
          serializer Sample.world
        = save serializer (Some b) w1)
    /\ one_blog_per_user (db w1)
    /\ unique_blog_keys (db w1)
    /\ incl (DB.blogs (db Sample.world)) (DB.blogs (db w1))
    /\ has_blog Sample.dave (db w1).
Proof.
  exact (perform_create_keeps_blog_table
           (Sample.view_of (Authenticated Sample.dave) (Return Sample.post1))
           Sample.dave Sample.world eq_refl
           (proj1 sample_tables_well_formed)
           (proj2 sample_tables_well_formed)).
Defined.

Lemma perform_create_provisions_once_witness :
  exists b : Blog.t,
    calls (snd (PostEditorMixin.perform_create
                  (Sample.view_of (Authenticated Sample.dave)
                                  (Return Sample.post1))
                  (Sample.post_serializer "P3" None) Sample.world))
    = calls Sample.world ++ [SerializerSave (Some b)]
    /\ PostEditorMixin.perform_create
         (Sample.view_of (Authenticated Sample.dave) (Return Sample.post1))
         (Sample.post_serializer "P4" None)
         (snd (PostEditorMixin.perform_create
                 (Sample.view_of (Authenticated Sample.dave)
                                 (Return Sample.post1))
                 (Sample.post_serializer "P3" None) Sample.world))
       = save (Sample.post_serializer "P4" None) (Some b)
           (snd (PostEditorMixin.perform_create
                   (Sample.view_of (Authenticated Sample.dave)
                                   (Return Sample.post1))
                   (Sample.post_serializer "P3" None) Sample.world)).
Proof.
  exact (perform_create_provisions_once
           (Sample.view_of (Authenticated Sample.dave) (Return Sample.post1))
           (Sample.post_serializer "P3" None)
           (Sample.post_serializer "P4" None)
           Sample.dave Sample.world eq_refl
           (post_serializer_keeps_blogs "P3" None)).
Defined.

Lemma perform_create_fails_only_in_save_witness :
  exists (b : Blog.t) (d : DB.t),
    owned_by Sample.alice b = true
    /\ fst (save_effect
              (mkSerializer
                 (fun _ d => (Raise (ValueError "invalid payload"), d)))
              (Some b) d)
       = Raise (ValueError "invalid payload").
Proof.
  apply (perform_create_fails_only_in_save
           (Sample.view_of (Authenticated Sample.alice) (Return Sample.post1))
           (mkSerializer
              (fun _ d => (Raise (ValueError "invalid payload"), d)))
           Sample.alice Sample.world (ValueError "invalid payload")).
  - reflexivity.
  - reflexivity.
Defined.

(** Two posts by a newcomer: one blog is made, both posts go to it. *)
Example newcomer_posts_twice :
  snd (PostEditorMixin.perform_create
         (Sample.view_of (Authenticated Sample.dave) (Return Sample.post1))
         (Sample.post_serializer "P4" None)
         (snd (PostEditorMixin.perform_create
                 (Sample.view_of (Authenticated Sample.dave)
                                 (Return Sample.post1))
                 (Sample.post_serializer "P3" None) Sample.world)))
  = let blog3 := Blog.mk 3 "Blog de dave" "Blog personal" Sample.dave in
    mkWorld
      (DB.mk [Sample.blog1; Sample.blog2; blog3]
             [Sample.post1; Sample.post2;
              Post.mk 3 "P3" blog3; Post.mk 4 "P4" blog3])
      [SerializerSave (Some blog3); SerializerSave (Some blog3)].
Proof. reflexivity. Qed.

(** ** Visitors and the blog hooks *)

(** X16: a visitor who is not logged in is refused by both blog hooks on
    their own, whatever blog is aimed at and whatever permissions ran
    before: [perform_update] on a target that was found and
    [perform_destroy] raise [PermissionDenied] and touch nothing. *)
Theorem blog_hooks_refuse_anonymous
    (self : View Blog.t) (serializer : Serializer)
    (instance : Instance Blog.t) (w : World) :
  user (request self) = AnonymousUser ->
  (forall blog : Blog.t,
      get_object self = Return blog ->
      BlogOwnerPermissionMixin.perform_update self serializer w
      = (Raise (PermissionDenied "Only the owner of the blog can edit it"),
         w))
  /\ BlogOwnerPermissionMixin.perform_destroy self instance w
     = (Raise (PermissionDenied "Only the owner of the blog can delete it"),
        w).
Proof.
  intros Hu.
  unfold BlogOwnerPermissionMixin.perform_update,
    BlogOwnerPermissionMixin.perform_destroy, bind, lift.
  rewrite Hu. split; [ intros blog Ho; rewrite Ho | ]; reflexivity.
Qed.

Lemma blog_hooks_refuse_anonymous_witness :
  BlogOwnerPermissionMixin.perform_update
    (Sample.view_of AnonymousUser (Return Sample.blog2))
    Sample.mock_serializer Sample.world
  = (Raise (PermissionDenied "Only the owner of the blog can edit it"),
     Sample.world)
  /\ BlogOwnerPermissionMixin.perform_destroy
       (Sample.view_of AnonymousUser (Return Sample.blog2))
       (Sample.blog_instance Sample.blog2) Sample.world
     = (Raise (PermissionDenied "Only the owner of the blog can delete it"),
        Sample.world).
Proof.
  destruct (blog_hooks_refuse_anonymous
              (Sample.view_of AnonymousUser (Return Sample.blog2))
              Sample.mock_serializer (Sample.blog_instance Sample.blog2)
              Sample.world eq_refl) as [Hupd Hdel].
  split; [ exact (Hupd Sample.blog2 eq_refl) | exact Hdel ].
Defined.
